(** * nb-cli: a shallow embedding of [src/nb_cli/handlers.py]

    The handlers are thin glue over external tools (the prompt library, the
    template engine, the package installer, the compose CLI, the bot
    framework).  The embedding keeps the handlers' own control flow and data
    handling as written, threads an explicit [world] (file system, importable
    modules, the user's pending terminal input and a log of externally visible
    effects) through them, and represents Python exceptions by the [Raise]
    outcome. *)

From Stdlib Require Import ZArith Lia Ascii String.
From stdpp Require Import gmap strings list.

(** ** Python text *)

Module PyStr.

(** Python [str] values are modelled as Rocq strings (sequences of 8-bit
    characters); the handlers only compare, concatenate and test prefixes. *)

(** The line feed and the double quote, by character code. *)
Definition nl : string := String "010"%char "".
Definition dquote : string := String "034"%char "".

(** [x.startswith(pre)] *)
Definition startswith (x pre : string) : bool := String.prefix pre x.

(** [str.isspace] on the 8-bit range: TAB..CR, FS..US and the blank. *)
Definition isspace (c : ascii) : bool :=
  let n := nat_of_ascii c in
  ((9 <=? n) && (n <=? 13)) || ((28 <=? n) && (n <=? 32)).

(** [s.lstrip()] *)
Fixpoint lstrip (s : string) : string :=
  match s with
  | String c s' => if isspace c then lstrip s' else s
  | EmptyString => EmptyString
  end.

(** [s.rstrip()]: drop the trailing blanks. *)
Fixpoint rstrip (s : string) : string :=
  match s with
  | String c s' =>
      match rstrip s' with
      | EmptyString => if isspace c then EmptyString else String c EmptyString
      | r => String c r
      end
  | EmptyString => EmptyString
  end.

(** [s.strip()] *)
Definition strip (s : string) : string := lstrip (rstrip s).

(** [c.lower()] on the ASCII letters; other characters are left as they are,
    so [lower] below is [str.lower] on ASCII text only. *)
Definition lower_ascii (c : ascii) : ascii :=
  let n := nat_of_ascii c in
  if (65 <=? n) && (n <=? 90) then ascii_of_nat (n + 32) else c.

Fixpoint map_chars (f : ascii -> ascii) (s : string) : string :=
  match s with
  | String c s' => String (f c) (map_chars f s')
  | EmptyString => EmptyString
  end.

(** [s.lower()] *)
Definition lower (s : string) : string := map_chars lower_ascii s.

(** [s.replace(a, b)] for one-character [a] and [b]. *)
Definition replace_char (a b : ascii) (s : string) : string :=
  map_chars (fun c => if Ascii.eqb c a then b else c) s.

(** [f.readlines()] on the text of a file: the text is cut after every line
    feed, each line keeps its line feed, and a last line without one is kept
    as it is.  (The text is what Python's text layer delivers, that is after
    its newline translation.) *)
Fixpoint readlines (s : string) : list string :=
  match s with
  | EmptyString => []
  | String c rest =>
      if Ascii.eqb c "010"%char then String c EmptyString :: readlines rest
      else match readlines rest with
           | [] => [String c EmptyString]
           | l :: ls => String c l :: ls
           end
  end.

(** [f.writelines(lines)] writes the strings one after the other, adding
    nothing between them. *)
Definition writelines (lines : list string) : string := String.concat "" lines.

(** [repr] of a list of strings none of which needs escaping (the question
    keys of this file). *)
Definition repr_str (s : string) : string := "'" +:+ s +:+ "'".
Definition repr_list (l : list string) : string :=
  "[" +:+ String.concat ", " (repr_str <$> l) +:+ "]".

End PyStr.
Import PyStr.

(** ** Python lists *)

(** [l.index(x)]: the position of the first element equal to [x], if any. *)
Fixpoint py_index {A : Type} `{EqDecision A} (x : A) (l : list A) : option nat :=
  match l with
  | [] => None
  | y :: l' => if decide (y = x) then Some 0 else S <$> py_index x l'
  end.

(** [l.insert(i, x)] for [i >= 0]: [x] is put before position [i], and at the
    end when [i] is past the end. *)
Definition py_insert {A : Type} (i : nat) (x : A) (l : list A) : list A :=
  take i l ++ x :: drop i l.

(** ** Values, exceptions and outcomes *)

Inductive exn :=
| ValueError | TypeError | AttributeError | KeyError
| ModuleNotFoundError | FileNotFoundError.

Inductive outcome (A : Type) :=
| Return (a : A)
| Raise (e : exn).
Arguments Return {A} a.
Arguments Raise {A} e.

(** Positional arguments bound by [functools.partial]. *)
Inductive pyarg :=
| AStr (s : string)
| AStrs (l : list string).

(** The handlers that the interactive menu can dispatch to. *)
Inductive func :=
| Fdraw_logo | Fcreate_project | Frun_bot | F_call_docker_compose | Fcreate_plugin.

Inductive callable :=
| Plain (f : func)
| Partial (f : func) (bound : list pyarg).

Inductive pyval :=
| VNone
| VBool (b : bool)
| VInt (z : Z)
| VStr (s : string)
| VFun (c : callable).

(** Python truthiness, as used by [not x] and [if x]. *)
Definition truthy (v : pyval) : bool :=
  match v with
  | VNone => false
  | VBool b => b
  | VInt z => negb (z =? 0)%Z
  | VStr s => negb (String.eqb s "")
  | VFun _ => true
  end.

(** Truthiness of an [Optional[str]] parameter. *)
Definition truthy_opt (o : option string) : bool :=
  match o with
  | None => false
  | Some s => negb (String.eqb s "")
  end.

(** [d.get(k)] on a dictionary of values. *)
Definition dict_get (d : gmap string pyval) (k : string) : pyval :=
  default VNone (d !! k).

(** ** Questions, answers and the user's terminal *)

Inductive qtype := QInput | QList | QConfirm.

(** The [choices] entry of a question: a fixed list, or a function of the
    answers collected so far. *)
Inductive choice_spec :=
| Static (l : list string)
| Dynamic (f : gmap string pyval -> outcome (list string)).

(** A question dictionary as the handlers build it.  A [filter] turns the raw
    answer into the stored one; a [validate] predicate guards free text. *)
Record question := Question {
  q_type : qtype;
  q_name : string;
  q_message : string;
  q_validate : option (string -> bool);
  q_choices : option choice_spec;
  q_filter : option (string -> outcome pyval);
  q_default : option bool
}.

(** What the user does at the terminal, one entry per attempt: submit a raw
    answer, or interrupt the interaction. *)
Inductive response :=
| Reply (v : pyval)
| Interrupt.

(** ** Externally visible effects *)

Inductive event :=
| EvSecho (message : string) (fg : option string) (bold : bool)
| EvEcho (message : string)
| EvPrompt (questions : list question) (qmark : option string)
           (result : outcome (gmap string pyval))
| EvCookiecutter (template : string) (no_input : bool)
                 (output_dir : option pyval) (extra_context : gmap string pyval)
| EvImportModule (name : string)
| EvNonebotRun (app : option string)
| EvPipMain (args : list string)
| EvWriteFile (path content : string)
| EvDispatcherParse (argv : list string)
| EvSetupConsoleHandler (verbose no_color log_level : pyval)
| EvSetupParallelLogger (no_color : pyval)
| EvPerformCommand (options : gmap string pyval) (handler : string)
                   (command_options : gmap string pyval).

(** ** The world *)

(** A path names a regular file with its text, or a directory.  Paths are
    identified with their text. *)
Inductive node :=
| File (content : string)
| Directory.

Record world := World {
  fs : gmap string node;                       (* the file system *)
  modules : gmap string (gmap string pyval);   (* importable modules and their attributes *)
  tape : list response;                        (* the user's pending terminal input *)
  log : list event                             (* effects so far, oldest first *)
}.

Definition set_fs (f : gmap string node) (w : world) : world :=
  World f (modules w) (tape w) (log w).
Definition set_tape (t : list response) (w : world) : world :=
  World (fs w) (modules w) t (log w).
Definition add_log (e : event) (w : world) : world :=
  World (fs w) (modules w) (tape w) (log w ++ [e]).

(** [os.path.isfile(p)] and [Path(p).is_dir()] *)
Definition isfile (f : gmap string node) (p : string) : bool :=
  match f !! p with Some (File _) => true | _ => false end.
Definition is_dir (f : gmap string node) (p : string) : bool :=
  match f !! p with Some Directory => true | _ => false end.

(** ** Computations with state and exceptions *)

Definition M (A : Type) : Type := world -> outcome A * world.

#[global] Instance M_ret : MRet M := fun A a w => (Return a, w).
#[global] Instance M_bind : MBind M := fun A B k m w =>
  match m w with
  | (Return a, w') => k a w'
  | (Raise e, w') => (Raise e, w')
  end.

Definition raise {A : Type} (e : exn) : M A := fun w => (Raise e, w).
Definition get_world : M world := fun w => (Return w, w).
Definition emit (e : event) : M unit := fun w => (Return tt, add_log e w).

(** [click.secho(message, fg=..., bold=...)] and [click.echo(message)] *)
Definition secho (message : string) (fg : option string) (bold : bool) : M unit :=
  emit (EvSecho message fg bold).
Definition echo (message : string) : M unit := emit (EvEcho message).

(** [with open(file, "r") as f: lines = f.readlines()].  A file's content in
    the world is its text as Python's text layer delivers it (decoded, line
    ends translated); failures of the operating system or of the decoder are
    outside the model. *)
Definition read_lines (file : string) : M (list string) := fun w =>
  match fs w !! file with
  | Some (File content) => (Return (readlines content), w)
  | _ => (Raise FileNotFoundError, w)
  end.

(** [with open(file, "w") as f: f.writelines(lines)]: the file is replaced
    by the concatenation of [lines]. *)
Definition write_lines (file : string) (lines : list string) : M unit := fun w =>
  (Return tt,
   add_log (EvWriteFile file (writelines lines))
           (set_fs (<[file := File (writelines lines)]> (fs w)) w)).

(** [importlib.import_module(name)]: the module's attributes, or the failure
    to find it.  What running the module's code does is outside the model. *)
Definition import_module (name : string) : M (gmap string pyval) := fun w =>
  match modules w !! name with
  | Some m => (Return m, add_log (EvImportModule name) w)
  | None => (Raise ModuleNotFoundError, w)
  end.

(** [getattr(module, attr)], without a default. *)
Definition getattr (module : gmap string pyval) (attr : string) : M pyval :=
  match module !! attr with
  | Some v => mret v
  | None => raise AttributeError
  end.

(** ** The prompt library *)

(** Modelled from the spec: [PyInquirer.prompt] is an external library and not
    part of the sources.  Following section 4.1, the questions are asked in
    order; a choice list may be computed from the answers collected so far;
    the optional filter is applied to the raw answer before it is stored under
    the question's key; when the user cancels, an incomplete answer set (the
    empty one) is returned.  An attempt that the widget does not accept (free
    text failing [validate], an entry outside the choice list, a value of the
    wrong kind) leaves the user in the question, so the next attempt is read. *)

Definition resolve_choices (q : question) (answers : gmap string pyval)
  : outcome (list string) :=
  match q_choices q with
  | None => Return []
  | Some (Static l) => Return l
  | Some (Dynamic f) => f answers
  end.

Definition accepts (q : question) (choices : list string) (v : pyval) : bool :=
  match q_type q, v with
  | QInput, VStr s => match q_validate q with Some p => p s | None => true end
  | QList, VStr s => existsb (String.eqb s) choices
  | QConfirm, VBool _ => true
  | _, _ => false
  end.

Fixpoint ask_one (q : question) (choices : list string) (tp : list response)
  : option pyval * list response :=
  match tp with
  | [] => (None, [])
  | Interrupt :: tp' => (None, tp')
  | Reply v :: tp' =>
      if accepts q choices v then (Some v, tp') else ask_one q choices tp'
  end.

Definition apply_filter (q : question) (v : pyval) : outcome pyval :=
  match q_filter q, v with
  | Some f, VStr s =>
      match f s with Return v' => Return v' | Raise _ => Raise ValueError end
  | _, _ => Return v
  end.

Fixpoint ask_all (qs : list question) (answers : gmap string pyval)
    (tp : list response) : outcome (gmap string pyval) * list response :=
  match qs with
  | [] => (Return answers, tp)
  | q :: qs' =>
      match resolve_choices q answers with
      | Raise e => (Raise e, tp)
      | Return cs =>
          match ask_one q cs tp with
          | (None, tp') => (Return ∅, tp')
          | (Some v, tp') =>
              match apply_filter q v with
              | Raise e => (Raise e, tp')
              | Return v' => ask_all qs' (<[q_name q := v']> answers) tp'
              end
          end
      end
  end.

(** [prompt(questions, qmark=..., style=list_style)]; the style only affects
    rendering. *)
Definition prompt (questions : list question) (qmark : option string)
  : M (gmap string pyval) := fun w =>
  let '(r, tp') := ask_all questions ∅ (tape w) in
  (r, add_log (EvPrompt questions qmark r) (set_tape tp' w)).

(** ** External collaborators *)

(** Library functions the handlers call and whose code is outside the
    repository.  They are taken as parameters: each is the function of its
    arguments that the handler observes. *)
Record collaborators := Collaborators {
  (* [pyfiglet.figlet_format(text, font=font)] *)
  figlet_format : string -> string -> string;
  (* [os.path.splitext(path)] *)
  splitext : string -> string * string;
  (* [str((Path(__file__).parent / name).resolve())] *)
  template_root : string -> string;
  (* [Path(base).glob(pattern)], as the texts of the paths it yields *)
  glob : gmap string node -> string -> string -> list string;
  (* [pipmain(args)]: the installer's exit status *)
  pipmain : list string -> Z;
  (* [DocoptDispatcher(TopLevelCommand, ...).parse(argv)] *)
  docopt_parse : list string -> gmap string pyval * string * gmap string pyval;
  (* [compose.cli.main.set_no_color_if_clicolor(flag)] *)
  set_no_color_if_clicolor : pyval -> pyval;
  (* the value [compose.cli.main.perform_command(...)] returns *)
  perform_command : gmap string pyval -> string -> gmap string pyval -> pyval
}.

(** A handler either goes on with a value or has executed [return]. *)
Inductive flow (A : Type) :=
| Continue (a : A)
| Returned.
Arguments Continue {A} a.
Arguments Returned {A}.

Definition is_str (v : pyval) (s : string) : bool :=
  match v with VStr t => String.eqb t s | _ => false end.

(** ** The handlers *)

Section Handlers.

Variable X : collaborators.

(** [draw_logo] (lines 29-32) *)
Definition draw_logo : M unit :=
  secho (strip (figlet_format X "NoneBot" "basic")) (Some "cyan") true.

(** [nonebot.run(app=...)]: the blocking run loop, opaque here. *)
Definition nonebot_run (app : option string) : M unit := emit (EvNonebotRun app).

(** [run_bot] (lines 35-49) *)
Definition run_bot (file app : string) : M unit :=
  w ← get_world;
  if negb (isfile (fs w) file) then
    secho ("Cannot find " +:+ file +:+ " in current folder!") (Some "red") false
  else
    let module_name := fst (splitext X file) in
    module ← import_module module_name;
    _app ← getattr module app;
    if negb (truthy _app) then
      secho "Cannot find an asgi server. Add `app = nonebot.get_asgi()` to enable reload mode."
            None false;;
      nonebot_run None
    else
      nonebot_run (Some (module_name +:+ ":" +:+ app)).

(** [cookiecutter(template, no_input=True, output_dir=..., extra_context=...)]:
    the template engine, opaque here. *)
Definition cookiecutter (template : string) (output_dir : option pyval)
    (extra_context : gmap string pyval) : M unit :=
  emit (EvCookiecutter template true output_dir extra_context).

(** The choice list of the second question of [create_project]
    (lines 66-69), computed from the answers so far. *)
Definition use_src_choices (ctx : gmap string pyval) : outcome (list string) :=
  match ctx !! "project_name" with
  | Some (VStr s) =>
      Return ["1) In a " +:+ dquote
                +:+ replace_char "-" "_" (replace_char " " "-" (lower s))
                +:+ dquote +:+ " folder";
              "2) In a " +:+ dquote +:+ "src" +:+ dquote +:+ " folder"]
  | Some _ => Raise AttributeError
  | None => Raise KeyError
  end.

(** The [question] list of [create_project] (lines 53-77). *)
Definition create_project_question : list question :=
  [ Question QInput "project_name" "Project Name:"
      (Some (fun x => 0 <? String.length x)) None None None;
    Question QList "use_src" "Where to store the plugin?"
      None (Some (Dynamic use_src_choices))
      (Some (fun x => Return (VBool (startswith x "2")))) None;
    Question QConfirm "load_builtin" "Load NoneBot Builtin Plugin?"
      None None None (Some false) ].

(** [create_project] (lines 52-86) *)
Definition create_project : M unit :=
  let question := create_project_question in
  let keys : gset string := list_to_set (q_name <$> question) in
  answers ← prompt question (Some "[?]");
  if bool_decide (keys ≠ dom answers) then
    secho ("Error Input! Missing " +:+ repr_list (elements (keys ∖ dom answers)))
          (Some "red") false
  else
    cookiecutter (template_root X "project") None answers.

(** [_call_docker_compose] (lines 124-134) *)
Definition _call_docker_compose (command : string) (args : list string) : M pyval :=
  let parsed := docopt_parse X (command :: args) in
  let options := parsed.1.1 in
  let handler := parsed.1.2 in
  let command_options := parsed.2 in
  emit (EvDispatcherParse (command :: args));;
  emit (EvSetupConsoleHandler
          (dict_get options "--verbose")
          (set_no_color_if_clicolor X (dict_get options "--no-ansi"))
          (dict_get options "--log-level"));;
  emit (EvSetupParallelLogger
          (set_no_color_if_clicolor X (dict_get options "--no-ansi")));;
  let command_options :=
    if truthy (dict_get options "--no-ansi")
    then <["--no-color" := VBool true]> command_options
    else command_options in
  emit (EvPerformCommand options handler command_options);;
  mret (perform_command X options handler command_options).

(** The free-text question for a plugin directory (lines 168-173 and,
    verbatim again, 181-186). *)
Definition plugin_dir_input (f : gmap string node) : question :=
  Question QInput "plugin_dir" "Plugin Dir:"
    (Some (fun x => (0 <? String.length x) && is_dir f x)) None None None.

(** The re-prompt for a plugin directory (lines 174-178 and 187-191). *)
Definition ask_plugin_dir : M (flow pyval) :=
  w ← get_world;
  answers ← prompt [plugin_dir_input (fs w)] (Some "[?]");
  match answers !! "plugin_dir" with
  | None => secho "Error Input!" (Some "red") false;; mret Returned
  | Some plugin_dir => mret (Continue plugin_dir)
  end.

(** The choice list of lines 152-155 and 160. *)
Definition detected (f : gmap string node) : list string :=
  List.filter (is_dir f) (glob X f "." "**/plugins/") ++ ["Other"].

(** The single-choice question of lines 156-161. *)
Definition plugin_dir_list (f : gmap string node) : question :=
  Question QList "plugin_dir" "Where to store the plugin?"
    None (Some (Static (detected f))) None None.

(** First block of [create_plugin] (lines 138-149): settle the name. *)
Definition create_plugin_name (name : option string) : M (flow pyval) :=
  if negb (truthy_opt name) then
    answers ← prompt
      [ Question QInput "plugin_name" "Plugin Name:"
          (Some (fun x => 0 <? String.length x)) None None None ]
      (Some "[?]");
    match answers !! "plugin_name" with
    | None => secho "Error Input!" (Some "red") false;; mret Returned
    | Some name => mret (Continue name)
    end
  else mret (Continue (VStr (default "" name))).

(** Second block of [create_plugin] (lines 151-191): settle the directory. *)
Definition create_plugin_dir (plugin_dir : option string) : M (flow pyval) :=
  w ← get_world;
  if negb (truthy_opt plugin_dir) then
    answers ← prompt [plugin_dir_list (fs w)] (Some "[?]");
    match answers !! "plugin_dir" with
    | None => secho "Error Input!" (Some "red") false;; mret Returned
    | Some plugin_dir =>
        if is_str plugin_dir "Other" then ask_plugin_dir
        else mret (Continue plugin_dir)
    end
  else if negb (is_dir (fs w) (default "" plugin_dir)) then
    secho "Plugin Dir is not a directory!" (Some "yellow") false;;
    ask_plugin_dir
  else mret (Continue (VStr (default "" plugin_dir))).

(** [create_plugin] (lines 137-196) *)
Definition create_plugin (name plugin_dir : option string) : M unit :=
  n ← create_plugin_name name;
  match n with
  | Returned => mret tt
  | Continue name =>
      d ← create_plugin_dir plugin_dir;
      match d with
      | Returned => mret tt
      | Continue plugin_dir =>
          cookiecutter (template_root X "plugin") (Some plugin_dir)
                       {["plugin_name" := name]}
      end
  end.

(** [_call_pip_install] (lines 228-229).  The installer is a black box: the
    handler only observes its exit status, and what the installer itself
    does to the machine is outside the model. *)
Definition _call_pip_install (package index : string) : M Z :=
  emit (EvPipMain ["install"; "-i"; index; package]);;
  mret (pipmain X ["install"; "-i"; index; package]).

(** The test applied to each line by the lambda of lines 212-213. *)
Definition is_anchor (x : string) : bool :=
  startswith x "nonebot.load" || startswith x "nonebot.init".

(** The statement built at line 215. *)
Definition load_statement (package : string) : string :=
  "nonebot.load_plugin(" +:+ dquote +:+ "nonebot_plugin_" +:+ package
    +:+ dquote +:+ ")" +:+ nl.

(** [install_plugin] (lines 203-219) *)
Definition install_plugin (package file index : string) : M unit :=
  status ← _call_pip_install ("nonebot_plugin_" +:+ package) index;
  w ← get_world;
  if (status =? 0)%Z && isfile (fs w) file then
    lines ← read_lines file;
    match py_index true (is_anchor <$> rev lines) with
    | None => raise ValueError
    | Some i =>
        let insert_index := length lines - i in
        write_lines file (py_insert insert_index (load_statement package) lines)
    end
  else if (status =? 0)%Z then
    secho ("Cannot find " +:+ file +:+ " in current folder!") (Some "red") false
  else mret tt.

(** Calling a handler with positional arguments: too few or too many for
    its signature is a [TypeError]. *)
Definition apply_func (f : func) (args : list pyarg) : M pyval :=
  match f, args with
  | Fdraw_logo, [] => draw_logo;; mret VNone
  | Fcreate_project, [] => create_project;; mret VNone
  | Frun_bot, [] => run_bot "bot.py" "app";; mret VNone
  | Frun_bot, [AStr file] => run_bot file "app";; mret VNone
  | Frun_bot, [AStr file; AStr app] => run_bot file app;; mret VNone
  | F_call_docker_compose, [AStr command; AStrs args] =>
      _call_docker_compose command args
  | Fcreate_plugin, [] => create_plugin None None;; mret VNone
  | Fcreate_plugin, [AStr name] => create_plugin (Some name) None;; mret VNone
  | Fcreate_plugin, [AStr name; AStr d] =>
      create_plugin (Some name) (Some d);; mret VNone
  | _, _ => raise TypeError
  end.

(** [c()]: a plain function is called with no argument, a [partial] object
    with the arguments it has bound. *)
Definition call (c : callable) : M pyval :=
  match c with
  | Plain f => apply_func f []
  | Partial f bound => apply_func f bound
  end.

(** The [choices] dictionary of [handle_no_subcommand] (lines 94-109), in
    insertion order. *)
Definition choices : list (string * callable) :=
  [ ("Show Logo", Plain Fdraw_logo);
    ("Create a New Project", Plain Fcreate_project);
    ("Run the Bot in Current Folder", Plain Frun_bot);
    ("Build Docker Image for the Bot",
       Partial F_call_docker_compose [AStr "build"; AStrs []]);
    ("Deploy the Bot to Docker",
       Partial F_call_docker_compose [AStr "up"; AStrs ["-d"]]);
    ("Stop the Bot Container in Docker",
       Partial F_call_docker_compose [AStr "down"]);
    ("Create a New NoneBot Plugin", Plain Fcreate_plugin) ].

(** [choices[x]] *)
Fixpoint dict_item (d : list (string * callable)) (x : string) : outcome pyval :=
  match d with
  | [] => Raise KeyError
  | (k, c) :: d' => if String.eqb k x then Return (VFun c) else dict_item d' x
  end.

(** The menu question (lines 110-116). *)
Definition subcommand_question : question :=
  Question QList "subcommand" "What do you want to do?"
    None (Some (Static (fst <$> choices))) (Some (dict_item choices)) None.

(** [handle_no_subcommand] (lines 89-121) *)
Definition handle_no_subcommand : M unit :=
  draw_logo;;
  echo (nl +:+ String "008"%char "");;
  secho "Welcome to NoneBot CLI!" (Some "green") true;;
  answers ← prompt [subcommand_question] None;
  match answers !! "subcommand" with
  | None => secho "Error Input!" (Some "red") false
  | Some v =>
      if negb (truthy v) then secho "Error Input!" (Some "red") false
      else match v with
           | VFun c => call c;; mret tt
           | _ => raise TypeError
           end
  end.

End Handlers.

(** ** Predicates used in the statements *)

(** The anchor test in the specification's words (section 4.6): the line's
    trimmed content, leading whitespace removed, starts with the load-call or
    the init-call prefix.  To be compared with [is_anchor], the test the
    code applies. *)
Definition is_anchor_trimmed (x : string) : bool :=
  startswith (lstrip x) "nonebot.load" || startswith (lstrip x) "nonebot.init".

(** The keys of the questions passed to one [prompt] call. *)
Definition question_keys (qs : list question) : gset string :=
  list_to_set (q_name <$> qs).

(** A prompt interaction that returned an answer set whose keys are not the
    keys of the questions asked. *)
Definition incomplete (e : event) : bool :=
  match e with
  | EvPrompt qs _ (Return answers) => bool_decide (dom answers ≠ question_keys qs)
  | _ => false
  end.

(** Generator and patcher side effects: a template instantiation or a file
    write. *)
Definition side_effect (e : event) : bool :=
  match e with
  | EvCookiecutter _ _ _ _ | EvWriteFile _ _ => true
  | _ => false
  end.

(** A visible error: a message printed in red. *)
Definition visible_error (e : event) : bool :=
  match e with
  | EvSecho _ (Some fg) _ => String.eqb fg "red"
  | _ => false
  end.

(** The effects a computation adds to the log of the world it starts in. *)
Definition new_events {A : Type} (m : M A) (w : world) : list event :=
  drop (length (log w)) (log (snd (m w))).

(** The lines of a file of the world, as [readlines] delivers them. *)
Definition lines_of (w : world) (p : string) : option (list string) :=
  match fs w !! p with
  | Some (File content) => Some (readlines content)
  | _ => None
  end.



(** The events of the menu up to and including the prompt, when the user
    picks the entry for which the menu stores [c]. *)
Definition menu_events (X : collaborators) (c : callable) : list event :=
  [ EvSecho (strip (figlet_format X "NoneBot" "basic")) (Some "cyan") true;
    EvEcho (nl +:+ String "008"%char "");
    EvSecho "Welcome to NoneBot CLI!" (Some "green") true;
    EvPrompt [subcommand_question] None (Return {["subcommand" := VFun c]}) ].

(** A block of a handler is guarded when it leaves the file system alone,
    instantiates no template, and answers an incomplete prompt result with a
    visible error and [return]. *)
Definition guarded {A : Type} (m : M (flow A)) : Prop :=
  ∀ w, ∃ evs,
    log (m w).2 = log w ++ evs ∧
    fs (m w).2 = fs w ∧
    existsb side_effect evs = false ∧
    (existsb incomplete evs = true →
       (m w).1 = Return Returned ∧ existsb visible_error evs = true).

(** ** Proof automation *)

(** Unfold the monad's operations and the primitive effects, then compute. *)
Ltac run :=
  repeat progress
    (unfold secho, echo, mbind, M_bind, mret, M_ret, raise, get_world, emit,
            add_log, set_fs, set_tape;
     cbn).

(** ** A concrete setting for the examples *)

Definition demo : collaborators :=
  Collaborators
    (fun text _ => "  " +:+ text +:+ nl)
    (fun path => (substring 0 (String.length path - 3) path,
                  substring (String.length path - 3) 3 path))
    (fun name => "/site-packages/nb_cli/" +:+ name)
    (fun _ _ _ => ["plugins"; "src/plugins"; "docs/plugins"])
    (fun args => if bool_decide (args = ["install"; "-i"; "https://pypi.org/pypi";
                                         "nonebot_plugin_broken"])
                 then 1%Z else 0%Z)
    (fun argv => (∅, "handler", ∅))
    (fun flag => flag)
    (fun _ _ _ => VNone).

Definition demo_bot_py : string :=
  "import nonebot" +:+ nl +:+ "nonebot.init()" +:+ nl +:+ "nonebot.run()" +:+ nl.

Definition demo_plain_py : string :=
  "import nonebot" +:+ nl +:+ "    nonebot.init()" +:+ nl.

Definition demo_fs : gmap string node :=
  {[ "bot.py" := File demo_bot_py;
     "plain.py" := File demo_plain_py;
     "plugins" := Directory;
     "src/plugins" := Directory;
     "docs/plugins" := File "" ]}.

Definition demo_modules : gmap string (gmap string pyval) :=
  {[ "bot" := {[ "app" := VNone ]}; "plain" := ∅ ]}.

Definition demo_world (tp : list response) : world :=
  World demo_fs demo_modules tp [].

Definition pypi : string := "https://pypi.org/pypi".

(** ** Further predicates and examples *)

(** The four events of one run of the compose proxy on the command line
    [argv]. *)
Definition compose_events (X : collaborators) (argv : list string) : list event :=
  let parsed := docopt_parse X argv in
  let no_ansi := dict_get parsed.1.1 "--no-ansi" in
  [ EvDispatcherParse argv;
    EvSetupConsoleHandler (dict_get parsed.1.1 "--verbose")
      (set_no_color_if_clicolor X no_ansi) (dict_get parsed.1.1 "--log-level");
    EvSetupParallelLogger (set_no_color_if_clicolor X no_ansi);
    EvPerformCommand parsed.1.1 parsed.1.2
      (if truthy no_ansi then <["--no-color" := VBool true]> parsed.2
       else parsed.2) ].

(** Every character of a text passes the test. *)
Fixpoint all_chars (p : ascii → bool) (s : string) : bool :=
  match s with
  | String c s' => p c && all_chars p s'
  | EmptyString => true
  end.

(** A character that is no blank, no dash and no upper-case ASCII letter. *)
Definition folder_char (c : ascii) : bool :=
  negb (Ascii.eqb c " ") && negb (Ascii.eqb c "-")
  && negb ((65 <=? nat_of_ascii c) && (nat_of_ascii c <=? 90)).

(** A character of the ASCII range. *)
Definition is_ascii (c : ascii) : bool := nat_of_ascii c <? 128.



(** ** Facts about lines and list positions *)

Lemma string_app_cons (c : ascii) (s t : string) :
  String c s +:+ t = String c (s +:+ t).
Proof. reflexivity. Qed.

Lemma string_app_nil_l (s : string) : "" +:+ s = s.
Proof. reflexivity. Qed.

Lemma string_app_nil_r (s : string) : s +:+ "" = s.
Proof.
  induction s as [|c s IH]; [reflexivity|].
  now rewrite string_app_cons, IH.
Qed.

Lemma string_app_assoc (s t u : string) : (s +:+ t) +:+ u = s +:+ t +:+ u.
Proof.
  induction s as [|c s IH]; [reflexivity|].
  now rewrite !string_app_cons, IH.
Qed.

Lemma writelines_cons (l : string) (ls : list string) :
  writelines (l :: ls) = l +:+ writelines ls.
Proof.
  unfold writelines. destruct ls as [|l' ls]; cbn.
  - now rewrite string_app_nil_r.
  - reflexivity.
Qed.

Lemma writelines_app (ls ks : list string) :
  writelines (ls ++ ks) = writelines ls +:+ writelines ks.
Proof.
  induction ls as [|l ls IH]; [reflexivity|].
  cbn [app]. now rewrite !writelines_cons, IH, string_app_assoc.
Qed.

(** Writing back the lines that were read restores the text. *)
Lemma writelines_readlines (s : string) : writelines (readlines s) = s.
Proof.
  induction s as [|c rest IH]; [reflexivity|].
  cbn [readlines]. destruct (Ascii.eqb c "010").
  - rewrite writelines_cons, IH. reflexivity.
  - destruct (readlines rest) as [|l ls].
    + rewrite <- IH. reflexivity.
    + rewrite writelines_cons in *. rewrite <- IH. reflexivity.
Qed.

Lemma py_index_all_false (l : list bool) :
  (∀ b, b ∈ l → b = false) → py_index true l = None.
Proof.
  induction l as [|b l IH]; intros H; [reflexivity|].
  cbn. rewrite (H b) by constructor. cbn.
  rewrite IH; [reflexivity|]. intros b' Hb'. apply H. now constructor.
Qed.

Lemma py_index_first_true (l1 l2 : list bool) :
  (∀ b, b ∈ l1 → b = false) →
  py_index true (l1 ++ true :: l2) = Some (length l1).
Proof.
  induction l1 as [|b l1 IH]; intros H; [reflexivity|].
  cbn. rewrite (H b) by constructor. cbn.
  rewrite IH; [reflexivity|]. intros b' Hb'. apply H. now constructor.
Qed.

Lemma py_index_Some_lt (l : list bool) (i : nat) :
  py_index true l = Some i → i < length l.
Proof.
  revert i. induction l as [|b l IH]; intros i; cbn; [discriminate|].
  destruct (decide (b = true)).
  - intros [= <-]. lia.
  - destruct (py_index true l) as [j|]; cbn; [|discriminate].
    intros [= <-]. specialize (IH j eq_refl). lia.
Qed.

Lemma elem_of_rev_inv {A : Type} (x : A) (l : list A) : x ∈ rev l → x ∈ l.
Proof. rewrite !list_elem_of_In. apply in_rev. Qed.

(** The position found by the reverse scan, for a file cut at its last
    anchor line. *)
Lemma reverse_scan_last_anchor (pre post : list string) (a : string) :
  is_anchor a = true →
  (∀ l, l ∈ post → is_anchor l = false) →
  py_index true (is_anchor <$> rev (pre ++ a :: post)) = Some (length post).
Proof.
  intros Ha Hpost.
  rewrite rev_app_distr. cbn [rev]. rewrite <- List.app_assoc. cbn [app].
  rewrite fmap_app. cbn [fmap list_fmap]. rewrite Ha.
  rewrite py_index_first_true.
  - now rewrite length_fmap, length_rev.
  - intros b Hb. apply list_elem_of_fmap in Hb as (l & -> & Hl).
    apply Hpost. now apply elem_of_rev_inv.
Qed.

Lemma reverse_scan_no_anchor (lines : list string) :
  (∀ l, l ∈ lines → is_anchor l = false) →
  py_index true (is_anchor <$> rev lines) = None.
Proof.
  intros H. apply py_index_all_false.
  intros b Hb. apply list_elem_of_fmap in Hb as (l & -> & Hl).
  apply H. now apply elem_of_rev_inv.
Qed.

Lemma py_insert_after (pre post : list string) (a x : string) :
  py_insert (length (pre ++ a :: post) - length post) x (pre ++ a :: post)
  = pre ++ a :: x :: post.
Proof.
  unfold py_insert.
  replace (length (pre ++ a :: post) - length post) with (length (pre ++ [a]))
    by (rewrite !length_app; cbn; lia).
  replace (pre ++ a :: post) with ((pre ++ [a]) ++ post)
    by now rewrite <- List.app_assoc.
  rewrite take_app_length, drop_app_length.
  now rewrite <- List.app_assoc.
Qed.

(** A list with an anchor line can be cut at its last anchor line. *)
Lemma last_anchor_split (lines : list string) :
  (∃ l, l ∈ lines ∧ is_anchor l = true) →
  ∃ pre a post,
    lines = pre ++ a :: post ∧ is_anchor a = true ∧
    (∀ l, l ∈ post → is_anchor l = false).
Proof.
  induction lines as [|x lines IH]; intros (l & Hl & Hanchor).
  - inversion Hl.
  - destruct (existsb is_anchor lines) eqn:E.
    + apply existsb_exists in E as (l' & Hl' & Hanchor').
      destruct IH as (pre & a & post & -> & Ha & Hpost).
      { exists l'. split; [now apply list_elem_of_In|assumption]. }
      exists (x :: pre), a, post. auto.
    + assert (Hnone : ∀ l', l' ∈ lines → is_anchor l' = false).
      { intros l' Hl'. destruct (is_anchor l') eqn:E'; [|reflexivity].
        rewrite <- E. symmetry. apply existsb_exists. exists l'.
        split; [now apply list_elem_of_In|assumption]. }
      exists [], x, lines. split; [reflexivity|]. split; [|assumption].
      apply elem_of_cons in Hl as [->|Hl]; [assumption|].
      rewrite (Hnone l Hl) in Hanchor. discriminate.
Qed.

(** The cut at the last anchor line is unique. *)
Lemma last_anchor_unique (pre pre' post post' : list string) (a a' : string) :
  pre ++ a :: post = pre' ++ a' :: post' →
  is_anchor a = true → is_anchor a' = true →
  (∀ l, l ∈ post → is_anchor l = false) →
  (∀ l, l ∈ post' → is_anchor l = false) →
  pre = pre' ∧ a = a' ∧ post = post'.
Proof.
  intros Heq Ha Ha' Hpost Hpost'.
  assert (Hi : Some (length post) = Some (length post')).
  { rewrite <- (reverse_scan_last_anchor pre post a Ha Hpost).
    rewrite Heq. now apply reverse_scan_last_anchor. }
  injection Hi as Hlen.
  assert (Hlen' : length pre = length pre').
  { apply (f_equal length) in Heq. rewrite !length_app in Heq. cbn in Heq. lia. }
  apply app_inj_1 in Heq as [-> Heq]; [|assumption].
  now injection Heq as -> ->.
Qed.

(** ** Installing a plugin *)


(** The run of [install_plugin] on a file cut at its last anchor line. *)
Lemma install_plugin_at_split (X : collaborators)
    (package file index content : string) (w : world)
    (pre post : list string) (a : string) :
  pipmain X ["install"; "-i"; index; "nonebot_plugin_" +:+ package] = 0%Z →
  fs w !! file = Some (File content) →
  readlines content = pre ++ a :: post →
  is_anchor a = true →
  (∀ l, l ∈ post → is_anchor l = false) →
  install_plugin X package file index w =
    (Return tt,
     World (<[file := File (writelines (pre ++ a :: load_statement package :: post))]> (fs w))
           (modules w) (tape w)
           (log w ++ [EvPipMain ["install"; "-i"; index; "nonebot_plugin_" +:+ package];
                      EvWriteFile file
                        (writelines (pre ++ a :: load_statement package :: post))])).
Proof.
  intros Hstatus Hfile Hlines Ha Hpost.
  unfold install_plugin, _call_pip_install, read_lines, write_lines. run.
  rewrite Hstatus. unfold isfile. rewrite Hfile. cbn. rewrite Hfile.
  rewrite Hlines, (reverse_scan_last_anchor pre post a Ha Hpost).
  rewrite py_insert_after. cbn. now rewrite <- List.app_assoc.
Qed.

(** The list that [install_plugin] hands to [writelines]: when the entry file
    has at least one anchor line and the installer exits with status 0, it is
    the list of the lines read with the load statement put right after the
    last anchor line.  (What the written text reads back as is another
    matter: see [patched_text_reads_back] and the concrete runs.) *)
Lemma install_plugin_inserts_after_last_anchor (X : collaborators)
    (package file index content : string) (w : world) :
  pipmain X ["install"; "-i"; index; "nonebot_plugin_" +:+ package] = 0%Z →
  fs w !! file = Some (File content) →
  (∃ l, l ∈ readlines content ∧ is_anchor l = true) →
  ∃ pre a post,
    readlines content = pre ++ a :: post ∧
    is_anchor a = true ∧
    (∀ l, l ∈ post → is_anchor l = false) ∧
    install_plugin X package file index w =
      (Return tt,
       World (<[file := File (writelines (pre ++ a :: load_statement package :: post))]> (fs w))
             (modules w) (tape w)
             (log w ++ [EvPipMain ["install"; "-i"; index; "nonebot_plugin_" +:+ package];
                        EvWriteFile file
                          (writelines (pre ++ a :: load_statement package :: post))])).
Proof.
  intros Hstatus Hfile Hanchor.
  destruct (last_anchor_split _ Hanchor) as (pre & a & post & Hlines & Ha & Hpost).
  exists pre, a, post. repeat split; try assumption.
  now apply install_plugin_at_split with (content := content).
Qed.

(** C2: when the installer exits with status 0 and the entry file exists but
    has no anchor line, [install_plugin] ends in an uncaught [ValueError]:
    nothing is reported to the user and the file is not rewritten (the only
    effect is the installer call). *)
Theorem install_plugin_no_anchor_raises (X : collaborators)
    (package file index content : string) (w : world) :
  pipmain X ["install"; "-i"; index; "nonebot_plugin_" +:+ package] = 0%Z →
  fs w !! file = Some (File content) →
  (∀ l, l ∈ readlines content → is_anchor l = false) →
  install_plugin X package file index w =
    (Raise ValueError,
     World (fs w) (modules w) (tape w)
           (log w ++ [EvPipMain ["install"; "-i"; index; "nonebot_plugin_" +:+ package]])).
Proof.
  intros Hstatus Hfile Hnone.
  unfold install_plugin, _call_pip_install, read_lines. run.
  rewrite Hstatus. unfold isfile. rewrite Hfile. cbn. rewrite Hfile.
  now rewrite (reverse_scan_no_anchor _ Hnone).
Qed.

(** C3: when the installer exits with a nonzero status, [install_plugin]
    writes nothing: the file system is left as it was, no statement is
    inserted, and the only effect is the installer call. *)
Theorem install_plugin_failed_install_no_write (X : collaborators)
    (package file index : string) (w : world) :
  pipmain X ["install"; "-i"; index; "nonebot_plugin_" +:+ package] ≠ 0%Z →
  install_plugin X package file index w =
    (Return tt,
     World (fs w) (modules w) (tape w)
           (log w ++ [EvPipMain ["install"; "-i"; index; "nonebot_plugin_" +:+ package]])).
Proof.
  intros Hstatus. apply Z.eqb_neq in Hstatus.
  unfold install_plugin, _call_pip_install. run.
  now rewrite Hstatus.
Qed.

(** C8: when the installer exits with status 0 and the entry file does not
    exist, [install_plugin] prints the red message that the file cannot be
    found and writes nothing. *)
Theorem install_plugin_missing_file (X : collaborators)
    (package file index : string) (w : world) :
  pipmain X ["install"; "-i"; index; "nonebot_plugin_" +:+ package] = 0%Z →
  isfile (fs w) file = false →
  install_plugin X package file index w =
    (Return tt,
     World (fs w) (modules w) (tape w)
           (log w ++ [EvPipMain ["install"; "-i"; index; "nonebot_plugin_" +:+ package];
                      EvSecho ("Cannot find " +:+ file +:+ " in current folder!")
                              (Some "red") false])).
Proof.
  intros Hstatus Hfile.
  unfold install_plugin, _call_pip_install. run.
  rewrite Hstatus, Hfile. run.
  now rewrite <- List.app_assoc.
Qed.

(** ** Reading the patched file back *)









(** ** The anchor test *)

Lemma startswith_spec (x pre : string) :
  startswith x pre = true ↔ ∃ rest, x = pre +:+ rest.
Proof.
  unfold startswith. revert x.
  induction pre as [|c pre IH]; intros x.
  - split; [intros _; now exists x|]. intros _. now destruct x.
  - destruct x as [|d x]; cbn.
    + split; [discriminate|]. intros (rest & Hrest). discriminate.
    + destruct (Ascii.ascii_dec c d) as [->|Hne].
      * rewrite IH. split; intros (rest & Hrest); exists rest.
        -- now rewrite Hrest.
        -- now injection Hrest.
      * split; [discriminate|]. intros (rest & Hrest).
        injection Hrest as Hd _. congruence.
Qed.

Lemma lstrip_anchor (x : string) : is_anchor x = true → lstrip x = x.
Proof.
  unfold is_anchor. intros H. apply orb_true_iff in H.
  destruct H as [H|H]; apply startswith_spec in H as (rest & ->); reflexivity.
Qed.

(** C5 (as the code has it): a line is an anchor exactly when the line as
    read, with no whitespace removed, starts with [nonebot.load] or
    [nonebot.init]; every anchor also passes the specification's trimmed
    test. *)
Theorem is_anchor_untrimmed (x : string) :
  (is_anchor x = true ↔
     (∃ rest, x = "nonebot.load" +:+ rest) ∨ (∃ rest, x = "nonebot.init" +:+ rest))
  ∧ (is_anchor x = true → is_anchor_trimmed x = true).
Proof.
  split.
  - unfold is_anchor. rewrite orb_true_iff, !startswith_spec. reflexivity.
  - intros H. unfold is_anchor_trimmed. now rewrite (lstrip_anchor x H).
Qed.

(** C5 fails as stated: the indented line passes the trimmed test of the
    specification, and the code does not take it for an anchor. *)
Lemma indented_init_is_no_anchor :
  is_anchor_trimmed "    nonebot.init()" = true ∧
  is_anchor "    nonebot.init()" = false.
Proof. split; reflexivity. Qed.

(** ** Running the bot *)

(** C7 (what the code does): when the entry file exists and the loaded module
    does not define the attribute, [getattr] raises and [run_bot] ends in an
    uncaught [AttributeError]: no warning is printed and no run loop is
    started. *)
Theorem run_bot_missing_attribute_raises (X : collaborators)
    (file app : string) (w : world) (module : gmap string pyval) :
  isfile (fs w) file = true →
  modules w !! (splitext X file).1 = Some module →
  module !! app = None →
  run_bot X file app w =
    (Raise AttributeError,
     World (fs w) (modules w) (tape w)
           (log w ++ [EvImportModule (splitext X file).1])).
Proof.
  intros Hfile Hmodule Hattr.
  unfold run_bot, import_module, getattr. run.
  rewrite Hfile. cbn. rewrite Hmodule. cbn. rewrite Hattr. reflexivity.
Qed.

(** C10: when the entry file exists and the loaded module defines the
    attribute, [run_bot] starts the run loop with the [<module>:<attr>]
    reference only if the attribute's value is truthy; for a falsy value
    (such as [None]) it prints the warning about adding an ASGI server and
    starts the default run loop without an app reference. *)
Theorem run_bot_reload_only_for_truthy_attribute (X : collaborators)
    (file app : string) (w : world) (module : gmap string pyval) (v : pyval) :
  isfile (fs w) file = true →
  modules w !! (splitext X file).1 = Some module →
  module !! app = Some v →
  run_bot X file app w =
    (Return tt,
     World (fs w) (modules w) (tape w)
           (log w ++
            EvImportModule (splitext X file).1 ::
            if truthy v
            then [EvNonebotRun (Some ((splitext X file).1 +:+ ":" +:+ app))]
            else [EvSecho
                    "Cannot find an asgi server. Add `app = nonebot.get_asgi()` to enable reload mode."
                    None false;
                  EvNonebotRun None])).
Proof.
  intros Hfile Hmodule Hattr.
  unfold run_bot, import_module, getattr, nonebot_run. run.
  rewrite Hfile. cbn. rewrite Hmodule. cbn. rewrite Hattr. cbn.
  destruct (truthy v); run; now rewrite <- !List.app_assoc.
Qed.

(** ** The compose proxy and the menu *)

(** The run of the compose proxy: parse [[command, *args]], set up the two
    loggers, and hand over to the external tool's dispatch. *)
Lemma call_docker_compose_run (X : collaborators)
    (command : string) (args : list string) (w : world) :
  let parsed := docopt_parse X (command :: args) in
  let no_ansi := dict_get parsed.1.1 "--no-ansi" in
  let command_options :=
    if truthy no_ansi then <["--no-color" := VBool true]> parsed.2 else parsed.2 in
  _call_docker_compose X command args w =
    (Return (perform_command X parsed.1.1 parsed.1.2 command_options),
     World (fs w) (modules w) (tape w)
           (log w ++
            [EvDispatcherParse (command :: args);
             EvSetupConsoleHandler (dict_get parsed.1.1 "--verbose")
               (set_no_color_if_clicolor X no_ansi)
               (dict_get parsed.1.1 "--log-level");
             EvSetupParallelLogger (set_no_color_if_clicolor X no_ansi);
             EvPerformCommand parsed.1.1 parsed.1.2 command_options])).
Proof.
  cbn zeta. unfold _call_docker_compose. run.
  now rewrite <- !List.app_assoc.
Qed.

(** The pre-bound build and deploy variants call the proxy with
    [build] and no further argument, and with [up] and [-d]. *)
Lemma build_variant_calls_proxy (X : collaborators) (w : world) :
  call X (Partial F_call_docker_compose [AStr "build"; AStrs []]) w
  = _call_docker_compose X "build" [] w.
Proof. reflexivity. Qed.

Lemma deploy_variant_calls_proxy (X : collaborators) (w : world) :
  call X (Partial F_call_docker_compose [AStr "up"; AStrs ["-d"]]) w
  = _call_docker_compose X "up" ["-d"] w.
Proof. reflexivity. Qed.

(** What the menu stores for each of the three entries. *)
Lemma menu_entries :
  dict_item choices "Build Docker Image for the Bot"
    = Return (VFun (Partial F_call_docker_compose [AStr "build"; AStrs []])) ∧
  dict_item choices "Deploy the Bot to Docker"
    = Return (VFun (Partial F_call_docker_compose [AStr "up"; AStrs ["-d"]])) ∧
  dict_item choices "Stop the Bot Container in Docker"
    = Return (VFun (Partial F_call_docker_compose [AStr "down"])).
Proof. repeat split; reflexivity. Qed.


(** C6 (what the code does for the stop entry): the partial object binds
    [down] only, so calling it misses the [args] parameter of
    [_call_docker_compose]; the menu ends in a [TypeError] after the prompt,
    before anything is parsed or dispatched. *)
Theorem stop_variant_raises_type_error (X : collaborators)
    (f : gmap string node) (m : gmap string (gmap string pyval))
    (tp : list response) (lg : list event) :
  handle_no_subcommand X
    (World f m (Reply (VStr "Stop the Bot Container in Docker") :: tp) lg)
  = (Raise TypeError,
     World f m tp
       (lg ++ menu_events X (Partial F_call_docker_compose [AStr "down"]))).
Proof.
  unfold handle_no_subcommand, draw_logo, prompt. run.
  rewrite lookup_insert_eq. cbn.
  now rewrite <- !List.app_assoc.
Qed.

(** The build and deploy entries reach the proxy with the stated command
    lines. *)
Lemma build_and_deploy_variants_dispatch (X : collaborators)
    (f : gmap string node) (m : gmap string (gmap string pyval))
    (tp : list response) (lg : list event) :
  handle_no_subcommand X
    (World f m (Reply (VStr "Build Docker Image for the Bot") :: tp) lg)
  = (Return tt,
     snd (_call_docker_compose X "build" []
            (World f m tp
               (lg ++ menu_events X
                        (Partial F_call_docker_compose [AStr "build"; AStrs []])))))
  ∧
  handle_no_subcommand X
    (World f m (Reply (VStr "Deploy the Bot to Docker") :: tp) lg)
  = (Return tt,
     snd (_call_docker_compose X "up" ["-d"]
            (World f m tp
               (lg ++ menu_events X
                        (Partial F_call_docker_compose [AStr "up"; AStrs ["-d"]]))))).
Proof.
  split.
  - unfold handle_no_subcommand, draw_logo, prompt. run.
    rewrite lookup_insert_eq. cbn. unfold _call_docker_compose. run.
    now rewrite <- !List.app_assoc.
  - unfold handle_no_subcommand, draw_logo, prompt. run.
    rewrite lookup_insert_eq. cbn. unfold _call_docker_compose. run.
    now rewrite <- !List.app_assoc.
Qed.

(** ** The prompt *)

Lemma ask_one_accepts (q : question) (cs : list string) (tp tp' : list response)
    (v : pyval) :
  ask_one q cs tp = (Some v, tp') → accepts q cs v = true.
Proof.
  induction tp as [|[v0|] tp IH]; cbn; [discriminate| |discriminate].
  destruct (accepts q cs v0) eqn:E; [|exact IH].
  now intros [= <- _].
Qed.

(** An answer set that [prompt] returns is empty (the user cancelled) or has
    exactly the keys it started with and the keys of the questions. *)
Lemma ask_all_dom (qs : list question) :
  ∀ (answers : gmap string pyval) (tp tp' : list response)
    (result : gmap string pyval),
    ask_all qs answers tp = (Return result, tp') →
    result = ∅ ∨ dom result = dom answers ∪ question_keys qs.
Proof.
  induction qs as [|q qs IH]; intros answers tp tp' result; cbn.
  - intros [= <- _]. right. unfold question_keys. cbn.
    now rewrite (right_id_L ∅ (∪)).
  - destruct (resolve_choices q answers) as [cs|e]; [|discriminate].
    destruct (ask_one q cs tp) as [[v|] tp1].
    + destruct (apply_filter q v) as [v'|e]; [|discriminate].
      intros H. apply IH in H as [->|H]; [now left|right].
      rewrite H, dom_insert_L. unfold question_keys. cbn.
      now rewrite (comm_L (∪) {[q_name q]} (dom answers)), <- (assoc_L (∪)).
    + intros [= <- _]. now left.
Qed.

Lemma prompt_run (qs : list question) (qmark : option string) (w : world) :
  prompt qs qmark w =
    ((ask_all qs ∅ (tape w)).1,
     World (fs w) (modules w) (ask_all qs ∅ (tape w)).2
           (log w ++ [EvPrompt qs qmark (ask_all qs ∅ (tape w)).1])).
Proof. unfold prompt. now destruct (ask_all qs ∅ (tape w)). Qed.

(** A prompt that returns a non-empty answer set is not incomplete. *)
Lemma prompt_complete (qs : list question) (qmark : option string)
    (tp : list response) (answers : gmap string pyval) (k : string) :
  (ask_all qs ∅ tp).1 = Return answers →
  is_Some (answers !! k) →
  incomplete (EvPrompt qs qmark (Return answers)) = false.
Proof.
  intros Hask [v Hk]. cbn. apply bool_decide_eq_false. intros Hne. apply Hne.
  destruct (ask_all qs ∅ tp) as [r tp'] eqn:E. cbn in Hask. subst r.
  apply ask_all_dom in E as [->|E].
  - rewrite lookup_empty in Hk. discriminate.
  - now rewrite E, dom_empty_L, (left_id_L ∅ (∪)).
Qed.

(** ** Incomplete answers *)


Lemma keyed_prompt_guarded (q : question) (k : string)
    (next : pyval → M (flow pyval)) :
  (∀ v, guarded (next v)) →
  guarded (answers ← prompt [q] (Some "[?]");
           match answers !! k with
           | None => secho "Error Input!" (Some "red") false;; mret Returned
           | Some v => next v
           end).
Proof.
  intros Hnext w. unfold mbind, M_bind. rewrite prompt_run.
  destruct (ask_all [q] ∅ (tape w)) as [[answers|e] tp'] eqn:E; cbn [fst snd].
  - destruct (answers !! k) as [v|] eqn:Hk.
    + destruct (Hnext v (World (fs w) (modules w) tp'
                  (log w ++ [EvPrompt [q] (Some "[?]") (Return answers)])))
        as (evs & Hlog & Hfs & Hside & Hinc).
      exists (EvPrompt [q] (Some "[?]") (Return answers) :: evs).
      rewrite Hlog, Hfs. cbn [log fs]. rewrite <- List.app_assoc.
      split; [reflexivity|]. split; [reflexivity|]. split; [exact Hside|].
      intros H. cbn [existsb] in H.
      rewrite (prompt_complete [q] (Some "[?]") (tape w) answers k) in H
        by (rewrite ?E; eauto).
      apply Hinc in H as [H1 H2]. split; [exact H1|].
      cbn [existsb]. rewrite H2. apply orb_true_r.
    + exists [EvPrompt [q] (Some "[?]") (Return answers);
              EvSecho "Error Input!" (Some "red") false].
      run. rewrite <- List.app_assoc. repeat split.
  - exists [EvPrompt [q] (Some "[?]") (Raise e)]. cbn. repeat split; discriminate.
Qed.

Lemma mret_guarded {A : Type} (a : A) : guarded (mret (Continue a)).
Proof.
  intros w. exists []. cbn. rewrite app_nil_r. repeat split; discriminate.
Qed.

Lemma bind_get_world {A : Type} (k : world → M A) (w : world) :
  (w0 ← get_world; k w0) w = k w w.
Proof. reflexivity. Qed.

Lemma warned_guarded {A : Type} (message : string) (m : M (flow A)) :
  guarded m → guarded (secho message (Some "yellow") false;; m).
Proof.
  intros Hm w.
  destruct (Hm (World (fs w) (modules w) (tape w)
                  (log w ++ [EvSecho message (Some "yellow") false])))
    as (evs & Hlog & Hfs & Hside & Hinc).
  exists (EvSecho message (Some "yellow") false :: evs).
  run. rewrite Hlog, Hfs. cbn [log fs]. rewrite <- List.app_assoc.
  repeat split; try assumption; now apply Hinc.
Qed.

Lemma ask_plugin_dir_guarded : guarded ask_plugin_dir.
Proof.
  intros w.
  exact (keyed_prompt_guarded (plugin_dir_input (fs w)) "plugin_dir"
           (λ v, mret (Continue v)) (λ v, mret_guarded v) w).
Qed.

Lemma create_plugin_name_guarded (name : option string) :
  guarded (create_plugin_name name).
Proof.
  unfold create_plugin_name. destruct (negb (truthy_opt name)).
  - apply (keyed_prompt_guarded _ "plugin_name" (λ v, mret (Continue v))).
    intros v. apply mret_guarded.
  - apply mret_guarded.
Qed.

Lemma create_plugin_dir_guarded (X : collaborators) (plugin_dir : option string) :
  guarded (create_plugin_dir X plugin_dir).
Proof.
  intros w. unfold create_plugin_dir. rewrite !bind_get_world.
  destruct (negb (truthy_opt plugin_dir)).
  - apply (keyed_prompt_guarded _ "plugin_dir"
             (λ v, if is_str v "Other" then ask_plugin_dir
                   else mret (Continue v))).
    intros v. destruct (is_str v "Other");
      [apply ask_plugin_dir_guarded|apply mret_guarded].
  - destruct (negb (is_dir (fs w) (default "" plugin_dir))).
    + apply (warned_guarded _ _ ask_plugin_dir_guarded).
    + apply mret_guarded.
Qed.

Lemma new_events_app {A : Type} (m : M A) (w : world) (evs : list event) :
  log (m w).2 = log w ++ evs → new_events m w = evs.
Proof. unfold new_events. intros ->. apply drop_app_length. Qed.

Lemma create_project_aborts (X : collaborators) (w : world) :
  existsb incomplete (new_events (create_project X) w) = true →
  existsb visible_error (new_events (create_project X) w) = true ∧
  existsb side_effect (new_events (create_project X) w) = false ∧
  fs (create_project X w).2 = fs w.
Proof.
  unfold new_events, create_project, cookiecutter.
  unfold mbind, M_bind. rewrite prompt_run.
  destruct (ask_all create_project_question ∅ (tape w)) as [[answers|e] tp'];
    cbn [fst snd].
  - destruct (bool_decide (list_to_set (q_name <$> create_project_question)
                             ≠ dom answers)) eqn:E; run;
      rewrite <- List.app_assoc, drop_app_length; cbn.
    + intros _. auto.
    + apply bool_decide_eq_false in E. apply dec_stable in E.
      rewrite bool_decide_eq_false_2; [discriminate|].
      intros H. apply H. symmetry. exact E.
  - cbn. rewrite drop_app_length. discriminate.
Qed.

(** The two blocks of [create_plugin] and the template call, in sequence. *)
Lemma create_plugin_run (X : collaborators) (name plugin_dir : option string)
    (w : world) :
  create_plugin X name plugin_dir w =
    match create_plugin_name name w with
    | (Return (Continue n), w1) =>
        match create_plugin_dir X plugin_dir w1 with
        | (Return (Continue d), w2) =>
            (Return tt,
             World (fs w2) (modules w2) (tape w2)
                   (log w2 ++ [EvCookiecutter (template_root X "plugin") true
                                 (Some d) {["plugin_name" := n]}]))
        | (Return Returned, w2) => (Return tt, w2)
        | (Raise e, w2) => (Raise e, w2)
        end
    | (Return Returned, w1) => (Return tt, w1)
    | (Raise e, w1) => (Raise e, w1)
    end.
Proof.
  unfold create_plugin, cookiecutter, mbind, M_bind.
  destruct (create_plugin_name name w) as [[[n|]|e] w1]; try reflexivity.
  destruct (create_plugin_dir X plugin_dir w1) as [[[d|]|e] w2]; reflexivity.
Qed.

Lemma guarded_complete {A : Type} (evs : list event) (r : outcome (flow A)) :
  (existsb incomplete evs = true →
     r = Return Returned ∧ existsb visible_error evs = true) →
  r ≠ Return Returned → existsb incomplete evs = false.
Proof.
  intros H Hr. destruct (existsb incomplete evs); [|reflexivity].
  now destruct (H eq_refl).
Qed.

Lemma create_plugin_aborts (X : collaborators) (name plugin_dir : option string)
    (w : world) :
  existsb incomplete (new_events (create_plugin X name plugin_dir) w) = true →
  existsb visible_error (new_events (create_plugin X name plugin_dir) w) = true ∧
  existsb side_effect (new_events (create_plugin X name plugin_dir) w) = false ∧
  fs (create_plugin X name plugin_dir w).2 = fs w.
Proof.
  unfold new_events. rewrite create_plugin_run.
  destruct (create_plugin_name_guarded name w)
    as (evs1 & Hlog1 & Hfs1 & Hside1 & Hinc1).
  destruct (create_plugin_name name w) as [[[n|]|e] w1]; cbn [fst snd] in *.
  - destruct (create_plugin_dir_guarded X plugin_dir w1)
      as (evs2 & Hlog2 & Hfs2 & Hside2 & Hinc2).
    assert (Hnot1 : existsb incomplete evs1 = false)
      by (now apply (guarded_complete evs1 _ Hinc1)).
    destruct (create_plugin_dir X plugin_dir w1) as [[[d|]|e] w2];
      cbn [fst snd log fs] in *; rewrite Hlog2, Hlog1, Hfs2, Hfs1.
    + assert (Hnot2 : existsb incomplete evs2 = false)
        by (now apply (guarded_complete evs2 _ Hinc2)).
      rewrite <- !List.app_assoc, drop_app_length.
      rewrite !existsb_app, Hnot1, Hnot2. discriminate.
    + rewrite <- !List.app_assoc, drop_app_length.
      rewrite !existsb_app, Hnot1, Hside1, Hside2. cbn.
      intros H. destruct (Hinc2 H) as [_ ->]. now rewrite orb_true_r.
    + assert (Hnot2 : existsb incomplete evs2 = false)
        by (now apply (guarded_complete evs2 _ Hinc2)).
      rewrite <- !List.app_assoc, drop_app_length.
      rewrite !existsb_app, Hnot1, Hnot2. discriminate.
  - rewrite Hlog1, Hfs1, drop_app_length.
    intros H. destruct (Hinc1 H) as [_ ->]. now rewrite Hside1.
  - rewrite Hlog1, drop_app_length.
    intros H. now destruct (Hinc1 H).
Qed.

(** C4: whenever a prompt of [create_project] or [create_plugin] returns an
    answer set whose keys are not the keys of the questions asked, the
    operation prints an error in red, instantiates no template, writes no
    file, and leaves the file system as it was. *)
Theorem incomplete_answers_abort (X : collaborators) (w : world) :
  (existsb incomplete (new_events (create_project X) w) = true →
     existsb visible_error (new_events (create_project X) w) = true ∧
     existsb side_effect (new_events (create_project X) w) = false ∧
     fs (create_project X w).2 = fs w)
  ∧
  (∀ name plugin_dir,
     existsb incomplete (new_events (create_plugin X name plugin_dir) w) = true →
     existsb visible_error (new_events (create_plugin X name plugin_dir) w) = true ∧
     existsb side_effect (new_events (create_plugin X name plugin_dir) w) = false ∧
     fs (create_plugin X name plugin_dir w).2 = fs w).
Proof.
  split; [apply create_project_aborts|].
  intros name plugin_dir. apply create_plugin_aborts.
Qed.

(** ** The plugin directory *)

(** One question with a fixed choice list (or none) and no filter. *)
Lemma ask_all_plain (q : question) (cs : list string) (tp : list response) :
  resolve_choices q ∅ = Return cs →
  q_filter q = None →
  ask_all [q] ∅ tp =
    match ask_one q cs tp with
    | (Some v, tp') => (Return {[q_name q := v]}, tp')
    | (None, tp') => (Return ∅, tp')
    end.
Proof.
  intros Hcs Hfilter. cbn. rewrite Hcs.
  destruct (ask_one q cs tp) as [[v|] tp']; [|reflexivity].
  unfold apply_filter. now rewrite Hfilter.
Qed.

Lemma nonempty_dir_spec (f : gmap string node) (x : string) :
  (0 <? String.length x) && is_dir f x = true ↔ x ≠ "" ∧ is_dir f x = true.
Proof.
  destruct x as [|c x]; cbn.
  - split; [discriminate|]. now intros [H _].
  - split; [now intros ->|]. now intros [_ ->].
Qed.

(** The re-prompt, when the user ends up submitting [d]. *)
Lemma ask_plugin_dir_accepted (w : world) (d : pyval) (tp' : list response) :
  ask_one (plugin_dir_input (fs w)) [] (tape w) = (Some d, tp') →
  (∃ s, d = VStr s ∧ s ≠ "" ∧ is_dir (fs w) s = true) ∧
  ask_plugin_dir w =
    (Return (Continue d),
     World (fs w) (modules w) tp'
           (log w ++ [EvPrompt [plugin_dir_input (fs w)] (Some "[?]")
                        (Return {["plugin_dir" := d]})])).
Proof.
  intros Hask. split.
  - apply ask_one_accepts in Hask. destruct d as [| | |s|]; try discriminate.
    exists s. split; [reflexivity|]. now apply nonempty_dir_spec.
  - unfold ask_plugin_dir. rewrite bind_get_world.
    unfold mbind, M_bind. rewrite prompt_run.
    rewrite (ask_all_plain _ []) by reflexivity. rewrite Hask. cbn [fst snd].
    change (q_name (plugin_dir_input (fs w))) with "plugin_dir".
    now rewrite lookup_singleton_eq.
Qed.

(** The first event of the re-prompt is the free-text question. *)
Lemma ask_plugin_dir_log (w : world) :
  ∃ r evs,
    log (ask_plugin_dir w).2 =
      log w ++ EvPrompt [plugin_dir_input (fs w)] (Some "[?]") r :: evs.
Proof.
  unfold ask_plugin_dir. rewrite bind_get_world.
  unfold mbind, M_bind. rewrite prompt_run.
  destruct (ask_all [plugin_dir_input (fs w)] ∅ (tape w)) as [[answers|e] tp'];
    cbn [fst snd].
  - destruct (answers !! "plugin_dir"); run; eauto.
    eexists _, [_]. now rewrite <- List.app_assoc.
  - cbn. eauto.
Qed.

(** The directory block without a given directory: the single-choice
    question comes first. *)
Lemma create_plugin_dir_log (X : collaborators) (plugin_dir : option string)
    (w : world) :
  truthy_opt plugin_dir = false →
  ∃ r evs,
    log (create_plugin_dir X plugin_dir w).2 =
      log w ++ EvPrompt [plugin_dir_list X (fs w)] (Some "[?]") r :: evs.
Proof.
  intros Hdir. unfold create_plugin_dir. rewrite bind_get_world, Hdir.
  cbn [negb]. unfold mbind, M_bind. rewrite prompt_run.
  destruct (ask_all [plugin_dir_list X (fs w)] ∅ (tape w)) as [[answers|e] tp'];
    cbn [fst snd].
  - destruct (answers !! "plugin_dir") as [v|].
    + destruct (is_str v "Other"); [|cbn; eauto].
      destruct (ask_plugin_dir_log
                  (World (fs w) (modules w) tp'
                     (log w ++ [EvPrompt [plugin_dir_list X (fs w)] (Some "[?]")
                                  (Return answers)])))
        as (r & evs & ->).
      cbn [log fs]. rewrite <- List.app_assoc. cbn [app]. eauto.
    + run. eexists _, [_]. now rewrite <- List.app_assoc.
  - cbn. eauto.
Qed.

(** The directory block when the user settles on [Other]. *)
Lemma create_plugin_dir_other (X : collaborators) (plugin_dir : option string)
    (w : world) (tp1 : list response) :
  truthy_opt plugin_dir = false →
  ask_one (plugin_dir_list X (fs w)) (detected X (fs w)) (tape w)
    = (Some (VStr "Other"), tp1) →
  create_plugin_dir X plugin_dir w =
    ask_plugin_dir
      (World (fs w) (modules w) tp1
         (log w ++ [EvPrompt [plugin_dir_list X (fs w)] (Some "[?]")
                      (Return {["plugin_dir" := VStr "Other"]})])).
Proof.
  intros Hdir Hask. unfold create_plugin_dir. rewrite bind_get_world, Hdir.
  cbn [negb]. unfold mbind, M_bind. rewrite prompt_run.
  rewrite (ask_all_plain _ (detected X (fs w))) by reflexivity.
  rewrite Hask. cbn [fst snd].
  change (q_name (plugin_dir_list X (fs w))) with "plugin_dir".
  now rewrite lookup_singleton_eq.
Qed.

Lemma filter_NoDup {A : Type} (p : A → bool) (l : list A) :
  NoDup l → NoDup (List.filter p l).
Proof.
  induction 1 as [|x l Hx Hl IH]; cbn; [constructor|].
  destruct (p x); [|exact IH]. constructor; [|exact IH].
  rewrite list_elem_of_In, filter_In. rewrite <- list_elem_of_In. tauto.
Qed.

(** C9: when [create_plugin] has settled the name and was given no plugin
    directory, the question it asks next is a single choice among the
    directories that the [**/plugins/] glob yields (each as often as the
    glob yields it, hence once; paths that are not directories are left out)
    followed by the entry [Other]; when the user picks [Other], a free-text
    question follows whose validator accepts exactly the non-empty texts
    naming an existing directory, and the template is instantiated into the
    directory that the user then submits. *)
Theorem create_plugin_offers_detected_dirs (X : collaborators)
    (name plugin_dir : option string) (w0 w : world) (n : pyval) :
  truthy_opt plugin_dir = false →
  create_plugin_name name w0 = (Return (Continue n), w) →
  let globbed := glob X (fs w) "." "**/plugins/" in
  let dirs := List.filter (is_dir (fs w)) globbed in
  let q := plugin_dir_list X (fs w) in
  let q' := plugin_dir_input (fs w) in
  (∃ r, log (create_plugin X name plugin_dir w0).2 !! length (log w)
          = Some (EvPrompt [q] (Some "[?]") r))
  ∧ q_type q = QList
  ∧ q_choices q = Some (Static (dirs ++ ["Other"]))
  ∧ (∀ p, p ∈ dirs ↔ p ∈ globbed ∧ is_dir (fs w) p = true)
  ∧ (NoDup globbed → NoDup dirs)
  ∧ (∀ tp1,
       ask_one q (dirs ++ ["Other"]) (tape w) = (Some (VStr "Other"), tp1) →
       (∃ r', log (create_plugin X name plugin_dir w0).2 !! S (length (log w))
                = Some (EvPrompt [q'] (Some "[?]") r'))
       ∧ q_type q' = QInput
       ∧ (∃ v, q_validate q' = Some v ∧
               ∀ x, v x = true ↔ x ≠ "" ∧ is_dir (fs w) x = true)
       ∧ (∀ d tp2,
            ask_one q' [] tp1 = (Some d, tp2) →
            (∃ s, d = VStr s ∧ s ≠ "" ∧ is_dir (fs w) s = true) ∧
            create_plugin X name plugin_dir w0 =
              (Return tt,
               World (fs w) (modules w) tp2
                 (log w ++
                  [EvPrompt [q] (Some "[?]")
                     (Return {["plugin_dir" := VStr "Other"]});
                   EvPrompt [q'] (Some "[?]") (Return {["plugin_dir" := d]});
                   EvCookiecutter (template_root X "plugin") true (Some d)
                     {["plugin_name" := n]}])))).
Proof.
  intros Hdir Hname globbed dirs q q'. subst globbed dirs q q'.
  assert (Hrun := create_plugin_run X name plugin_dir w0).
  rewrite Hname in Hrun.
  split; [|split; [reflexivity|split; [reflexivity|split; [|split]]]].
  - destruct (create_plugin_dir_log X plugin_dir w Hdir) as (r & evs & Hlog).
    exists r. rewrite Hrun.
    destruct (create_plugin_dir X plugin_dir w) as [[[d|]|e] w2];
      cbn [fst snd log] in *; rewrite Hlog.
    + rewrite <- List.app_assoc. now apply list_lookup_middle.
    + now apply list_lookup_middle.
    + now apply list_lookup_middle.
  - intros p. rewrite !list_elem_of_In. apply filter_In.
  - apply filter_NoDup.
  - intros tp1 Hask.
    rewrite (create_plugin_dir_other X plugin_dir w tp1 Hdir Hask) in Hrun.
    remember (World (fs w) (modules w) tp1
                (log w ++ [EvPrompt [plugin_dir_list X (fs w)] (Some "[?]")
                             (Return {["plugin_dir" := VStr "Other"]})]))
      as w1 eqn:Hw1.
    assert (Hfs : fs w1 = fs w) by now subst w1.
    assert (Hlen : length (log w1) = S (length (log w)))
      by (subst w1; cbn; rewrite length_app; cbn; lia).
    split; [|split; [reflexivity|split]].
    + destruct (ask_plugin_dir_log w1) as (r' & evs & Hlog).
      exists r'. rewrite Hrun, <- Hlen, <- Hfs.
      destruct (ask_plugin_dir w1) as [[[d|]|e] w2];
        cbn [fst snd log] in *; rewrite Hlog.
      * rewrite <- List.app_assoc. now apply list_lookup_middle.
      * now apply list_lookup_middle.
      * now apply list_lookup_middle.
    + eexists. split; [reflexivity|]. intros x. apply nonempty_dir_spec.
    + intros d tp2 Hask'.
      assert (Hask1 : ask_one (plugin_dir_input (fs w1)) [] (tape w1)
                      = (Some d, tp2)) by (now subst w1).
      destruct (ask_plugin_dir_accepted w1 d tp2 Hask1) as [Hd Hrun'].
      rewrite Hfs in Hd. split; [exact Hd|]. rewrite Hrun, Hrun'.
      subst w1. cbn. now rewrite <- !List.app_assoc.
Qed.

(** ** Concrete runs *)

(** The specification's example: installing [foo] into a three-line entry
    file puts the load statement between [nonebot.init()] and
    [nonebot.run()]. *)
Example install_foo_in_demo_bot :
  readlines demo_bot_py
    = ["import nonebot" +:+ nl; "nonebot.init()" +:+ nl; "nonebot.run()" +:+ nl]
  ∧ (install_plugin demo "foo" "bot.py" pypi (demo_world [])).1 = Return tt
  ∧ (lines_of (install_plugin demo "foo" "bot.py" pypi (demo_world [])).2 "bot.py")
    = Some ["import nonebot" +:+ nl;
            "nonebot.init()" +:+ nl;
            "nonebot.load_plugin(" +:+ dquote +:+ "nonebot_plugin_foo" +:+ dquote
              +:+ ")" +:+ nl;
            "nonebot.run()" +:+ nl].
Proof. repeat split; vm_compute; reflexivity. Qed.

(** C1 fails on an entry file whose last anchor line has no line feed, here
    the two-line file [import nonebot / nonebot.init()] without a final line
    feed: the installer exits with status 0 and [install_plugin] returns, but
    the statement [nonebot.load_plugin("nonebot_plugin_foo")] is written
    right behind [nonebot.init()], on the same line.  The patched file has
    two lines, not three: the anchor line is not kept as it was, and the
    statement is not a line of its own after it. *)
Theorem install_plugin_glues_statement_onto_open_anchor :
  let w := World {["bot.py" := File ("import nonebot" +:+ nl +:+ "nonebot.init()")]}
                 ∅ [] [] in
  let statement :=
    "nonebot.load_plugin(" +:+ dquote +:+ "nonebot_plugin_foo" +:+ dquote
      +:+ ")" +:+ nl in
  pipmain demo ["install"; "-i"; pypi; "nonebot_plugin_foo"] = 0%Z
  ∧ lines_of w "bot.py" = Some ["import nonebot" +:+ nl; "nonebot.init()"]
  ∧ is_anchor "nonebot.init()" = true
  ∧ (install_plugin demo "foo" "bot.py" pypi w).1 = Return tt
  ∧ lines_of (install_plugin demo "foo" "bot.py" pypi w).2 "bot.py"
    = Some ["import nonebot" +:+ nl; "nonebot.init()" +:+ statement]
  ∧ bool_decide
      (lines_of (install_plugin demo "foo" "bot.py" pypi w).2 "bot.py"
       = Some ["import nonebot" +:+ nl; "nonebot.init()"; statement])
    = false
  ∧ bool_decide
      (lines_of (install_plugin demo "foo" "bot.py" pypi w).2 "bot.py"
       = Some ["import nonebot" +:+ nl; "nonebot.init()" +:+ nl; statement])
    = false.
Proof. cbv zeta. repeat split; vm_compute; reflexivity. Qed.

Lemma install_plugin_no_anchor_witness :
  install_plugin demo "foo" "plain.py" pypi (demo_world []) =
    (Raise ValueError,
     World demo_fs demo_modules []
           ([] ++ [EvPipMain ["install"; "-i"; pypi; "nonebot_plugin_" +:+ "foo"]])).
Proof.
  apply (install_plugin_no_anchor_raises
           demo "foo" "plain.py" pypi demo_plain_py (demo_world [])).
  - vm_compute. reflexivity.
  - vm_compute. reflexivity.
  - intros l Hl. apply list_elem_of_In in Hl. vm_compute in Hl.
    destruct Hl as [<-|[<-|[]]]; reflexivity.
Defined.

Lemma install_plugin_failed_install_witness :
  install_plugin demo "broken" "bot.py" pypi (demo_world []) =
    (Return tt,
     World demo_fs demo_modules []
           ([] ++ [EvPipMain ["install"; "-i"; pypi; "nonebot_plugin_" +:+ "broken"]])).
Proof.
  apply (install_plugin_failed_install_no_write
           demo "broken" "bot.py" pypi (demo_world [])).
  vm_compute. discriminate.
Defined.

Lemma install_plugin_missing_file_witness :
  install_plugin demo "foo" "main.py" pypi (demo_world []) =
    (Return tt,
     World demo_fs demo_modules []
           ([] ++ [EvPipMain ["install"; "-i"; pypi; "nonebot_plugin_" +:+ "foo"];
                   EvSecho ("Cannot find " +:+ "main.py" +:+ " in current folder!")
                           (Some "red") false])).
Proof.
  apply (install_plugin_missing_file demo "foo" "main.py" pypi (demo_world [])).
  - vm_compute. reflexivity.
  - vm_compute. reflexivity.
Defined.

(** Without a line feed after the last anchor line, the statement is written
    right behind it, on the same line. *)
Example install_after_unterminated_anchor :
  lines_of
    (install_plugin demo "foo" "bot.py" pypi
       (World {["bot.py" := File ("import nonebot" +:+ nl +:+ "nonebot.init()")]}
              ∅ [] [])).2
    "bot.py"
  = Some ["import nonebot" +:+ nl; "nonebot.init()" +:+ load_statement "foo"].
Proof. vm_compute. reflexivity. Qed.

(** The first choice of the second question of [create_project] names the
    folder after the project: lower case, blanks and dashes as underscores. *)
Example use_src_choices_for_my_bot :
  use_src_choices {["project_name" := VStr "My Bot-2"]}
  = Return ["1) In a " +:+ dquote +:+ "my_bot_2" +:+ dquote +:+ " folder";
            "2) In a " +:+ dquote +:+ "src" +:+ dquote +:+ " folder"].
Proof. vm_compute. reflexivity. Qed.

(** An entry file whose only initialization line is indented has no anchor
    for the code: the install ends in the [ValueError]. *)
Example install_into_indented_file :
  (install_plugin demo "foo" "plain.py" pypi (demo_world [])).1 = Raise ValueError.
Proof. vm_compute. reflexivity. Qed.

Lemma run_bot_missing_attribute_witness :
  run_bot demo "plain.py" "app" (demo_world []) =
    (Raise AttributeError,
     World demo_fs demo_modules [] ([] ++ [EvImportModule (splitext demo "plain.py").1])).
Proof.
  apply (run_bot_missing_attribute_raises demo "plain.py" "app" (demo_world []) ∅).
  - vm_compute. reflexivity.
  - vm_compute. reflexivity.
  - reflexivity.
Defined.

Lemma run_bot_falsy_attribute_witness :
  run_bot demo "bot.py" "app" (demo_world []) =
    (Return tt,
     World demo_fs demo_modules []
           ([] ++
            EvImportModule (splitext demo "bot.py").1 ::
            if truthy VNone
            then [EvNonebotRun (Some ((splitext demo "bot.py").1 +:+ ":" +:+ "app"))]
            else [EvSecho
                    "Cannot find an asgi server. Add `app = nonebot.get_asgi()` to enable reload mode."
                    None false;
                  EvNonebotRun None])).
Proof.
  apply (run_bot_reload_only_for_truthy_attribute
           demo "bot.py" "app" (demo_world []) {["app" := VNone]} VNone).
  - vm_compute. reflexivity.
  - vm_compute. reflexivity.
  - vm_compute. reflexivity.
Defined.

Lemma incomplete_answers_abort_witness :
  let w := demo_world [Reply (VStr "My Bot"); Interrupt] in
  (existsb incomplete (new_events (create_project demo) w) = true ∧
   existsb visible_error (new_events (create_project demo) w) = true ∧
   existsb side_effect (new_events (create_project demo) w) = false ∧
   fs (create_project demo w).2 = fs w)
  ∧
  (existsb incomplete (new_events (create_plugin demo None None) w) = true ∧
   existsb visible_error (new_events (create_plugin demo None None) w) = true ∧
   existsb side_effect (new_events (create_plugin demo None None) w) = false ∧
   fs (create_plugin demo None None w).2 = fs w).
Proof.
  cbv zeta.
  pose proof (incomplete_answers_abort demo
                (demo_world [Reply (VStr "My Bot"); Interrupt])) as [Hproject Hplugin].
  split.
  - split; [vm_compute; reflexivity|]. apply Hproject. vm_compute. reflexivity.
  - split; [vm_compute; reflexivity|]. apply Hplugin. vm_compute. reflexivity.
Defined.

Lemma create_plugin_offers_detected_dirs_witness :
  let w := demo_world [Reply (VStr "Other"); Reply (VStr "docs/plugins");
                       Reply (VStr "src/plugins")] in
  q_choices (plugin_dir_list demo (fs w))
    = Some (Static ["plugins"; "src/plugins"; "Other"])
  ∧ create_plugin demo (Some "demo") None w =
      (Return tt,
       World demo_fs demo_modules []
         [EvPrompt [plugin_dir_list demo demo_fs] (Some "[?]")
            (Return {["plugin_dir" := VStr "Other"]});
          EvPrompt [plugin_dir_input demo_fs] (Some "[?]")
            (Return {["plugin_dir" := VStr "src/plugins"]});
          EvCookiecutter (template_root demo "plugin") true
            (Some (VStr "src/plugins")) {["plugin_name" := VStr "demo"]}]).
Proof.
  cbv zeta.
  destruct (create_plugin_offers_detected_dirs demo (Some "demo") None
              (demo_world [Reply (VStr "Other"); Reply (VStr "docs/plugins");
                           Reply (VStr "src/plugins")])
              (demo_world [Reply (VStr "Other"); Reply (VStr "docs/plugins");
                           Reply (VStr "src/plugins")])
              (VStr "demo") eq_refl eq_refl)
    as (_ & _ & Hchoices & _ & _ & Hother).
  split; [exact Hchoices|].
  destruct (Hother [Reply (VStr "docs/plugins"); Reply (VStr "src/plugins")])
    as (_ & _ & _ & Hsubmit); [vm_compute; reflexivity|].
  destruct (Hsubmit (VStr "src/plugins") []) as [_ Hrun];
    [vm_compute; reflexivity|].
  exact Hrun.
Defined.

(** ** Further properties of [install_plugin] *)


(** X1: in terms of the text that Python's text layer delivers for the entry
    file and accepts for it, a successful patch is a pure insertion: the text
    written is the text read, in full, with the load statement spliced in
    right behind the text of the last anchor line. *)
Theorem install_plugin_is_pure_insertion (X : collaborators)
    (package file index content : string) (w : world) :
  pipmain X ["install"; "-i"; index; "nonebot_plugin_" +:+ package] = 0%Z →
  fs w !! file = Some (File content) →
  (∃ l, l ∈ readlines content ∧ is_anchor l = true) →
  ∃ pre a post,
    readlines content = pre ++ a :: post ∧
    is_anchor a = true ∧
    (∀ l, l ∈ post → is_anchor l = false) ∧
    content = writelines (pre ++ [a]) +:+ writelines post ∧
    fs (install_plugin X package file index w).2 !! file =
      Some (File (writelines (pre ++ [a]) +:+ load_statement package
                    +:+ writelines post)).
Proof.
  intros Hstatus Hfile Hanchor.
  destruct (last_anchor_split _ Hanchor) as (pre & a & post & Hlines & Ha & Hpost).
  exists pre, a, post. repeat split; try assumption.
  - rewrite <- writelines_app, <- List.app_assoc. cbn [app].
    now rewrite <- Hlines, writelines_readlines.
  - rewrite (install_plugin_at_split X package file index content w pre post a)
      by assumption.
    cbn. rewrite lookup_insert_eq. do 2 f_equal.
    replace (pre ++ a :: load_statement package :: post)
      with ((pre ++ [a]) ++ load_statement package :: post)
      by now rewrite <- List.app_assoc.
    now rewrite writelines_app, writelines_cons.
Qed.





(** ** Further properties of [run_bot] *)

(** X7: without the entry file, [run_bot] only prints the red message naming
    the file: nothing is imported and no run loop is started. *)
Theorem run_bot_missing_file (X : collaborators) (file app : string) (w : world) :
  isfile (fs w) file = false →
  run_bot X file app w =
    (Return tt,
     World (fs w) (modules w) (tape w)
           (log w ++ [EvSecho ("Cannot find " +:+ file +:+ " in current folder!")
                              (Some "red") false])).
Proof.
  intros Hfile. unfold run_bot. run. now rewrite Hfile.
Qed.

(** X8: [run_bot] calls [nonebot.run] only after the entry file was found,
    [import_module] returned its module and [getattr] found the attribute
    in it; the run loop then gets the [<module>:<attr>] reference exactly
    when the attribute's value is truthy. *)
Theorem run_bot_starts_only_with_attribute (X : collaborators)
    (file app : string) (w : world) (a : option string) :
  EvNonebotRun a ∈ new_events (run_bot X file app) w →
  isfile (fs w) file = true ∧
  ∃ module v,
    modules w !! (splitext X file).1 = Some module ∧
    module !! app = Some v ∧
    a = if truthy v then Some ((splitext X file).1 +:+ ":" +:+ app) else None.
Proof.
  unfold new_events, run_bot, import_module, getattr, nonebot_run. run.
  destruct (isfile (fs w) file); cbn.
  - destruct (modules w !! (splitext X file).1) as [module|]; cbn.
    + destruct (module !! app) as [v|] eqn:Hattr; cbn.
      * destruct (truthy v) eqn:Ht; cbn; intros Ha;
          rewrite <- ?List.app_assoc, drop_app_length in Ha;
          apply list_elem_of_In in Ha; cbn in Ha;
          (split; [reflexivity|]); exists module, v;
          (split; [reflexivity|]); (split; [exact Hattr|]).
        -- destruct Ha as [Ha|[Ha|[]]]; [discriminate|].
           injection Ha as <-. now rewrite Ht.
        -- destruct Ha as [Ha|[Ha|[Ha|[]]]]; [discriminate|discriminate|].
           injection Ha as <-. now rewrite Ht.
      * intros Ha. rewrite drop_app_length in Ha.
        apply list_elem_of_singleton in Ha. discriminate.
    + intros Ha. rewrite drop_all in Ha. inversion Ha.
  - intros Ha. rewrite drop_app_length in Ha.
    apply list_elem_of_singleton in Ha. discriminate.
Qed.

(** ** Further properties of [create_plugin] *)

Lemma mret_run {A : Type} (a : A) (w : world) :
  (mret a : M A) w = (Return a, w).
Proof. reflexivity. Qed.

Lemma truthy_opt_Some (s : string) : s ≠ "" → truthy_opt (Some s) = true.
Proof. intros Hs. cbn. now destruct s. Qed.

(** X9: with a non-empty name and an existing directory given,
    [create_plugin] asks nothing: it instantiates the plugin template into
    that directory under that name. *)
Theorem create_plugin_non_interactive (X : collaborators)
    (name plugin_dir : string) (w : world) :
  name ≠ "" → plugin_dir ≠ "" →
  is_dir (fs w) plugin_dir = true →
  create_plugin X (Some name) (Some plugin_dir) w =
    (Return tt,
     World (fs w) (modules w) (tape w)
           (log w ++ [EvCookiecutter (template_root X "plugin") true
                        (Some (VStr plugin_dir))
                        {["plugin_name" := VStr name]}])).
Proof.
  intros Hname Hdir Hexists.
  rewrite create_plugin_run. unfold create_plugin_name, create_plugin_dir.
  rewrite (truthy_opt_Some name Hname). cbn [negb].
  rewrite mret_run, bind_get_world, (truthy_opt_Some plugin_dir Hdir).
  cbn [negb from_option id]. now rewrite Hexists.
Qed.

(** What the free-text question for a directory lets through. *)
Lemma ask_plugin_dir_continue (w w' : world) (d : pyval) :
  ask_plugin_dir w = (Return (Continue d), w') →
  ∃ s, d = VStr s ∧ s ≠ "" ∧ is_dir (fs w) s = true.
Proof.
  unfold ask_plugin_dir. rewrite bind_get_world.
  unfold mbind, M_bind. rewrite prompt_run.
  rewrite (ask_all_plain _ []) by reflexivity.
  destruct (ask_one (plugin_dir_input (fs w)) [] (tape w)) as [[v|] tp'] eqn:E;
    cbn [fst snd].
  - change (q_name (plugin_dir_input (fs w))) with "plugin_dir".
    rewrite lookup_singleton_eq. intros [= <- _].
    apply ask_one_accepts in E. destruct v as [| | |s|]; try discriminate.
    exists s. split; [reflexivity|]. now apply nonempty_dir_spec.
  - rewrite lookup_empty. run. discriminate.
Qed.

Lemma create_plugin_name_continue (name : option string) (w w' : world)
    (n : pyval) :
  create_plugin_name name w = (Return (Continue n), w') →
  ∃ s, n = VStr s ∧ s ≠ "".
Proof.
  unfold create_plugin_name. destruct name as [s|]; cbn [truthy_opt].
  - destruct (String.eqb_spec s "") as [->|Hs]; cbn [negb].
    + unfold mbind, M_bind. rewrite prompt_run.
      rewrite (ask_all_plain _ []) by reflexivity.
      match goal with |- context [ask_one ?q [] (tape w)] =>
        destruct (ask_one q [] (tape w)) as [[v|] tp'] eqn:E end; cbn [fst snd].
      * cbn [q_name]. rewrite lookup_singleton_eq. intros [= <- _].
        apply ask_one_accepts in E. destruct v as [| | |s|]; try discriminate.
        exists s. split; [reflexivity|]. cbn in E. now destruct s.
      * rewrite lookup_empty. run. discriminate.
    + intros [= <- _]. now exists s.
  - cbn [negb]. unfold mbind, M_bind. rewrite prompt_run.
    rewrite (ask_all_plain _ []) by reflexivity.
    match goal with |- context [ask_one ?q [] (tape w)] =>
      destruct (ask_one q [] (tape w)) as [[v|] tp'] eqn:E end; cbn [fst snd].
    + cbn [q_name]. rewrite lookup_singleton_eq. intros [= <- _].
      apply ask_one_accepts in E. destruct v as [| | |s|]; try discriminate.
      exists s. split; [reflexivity|]. cbn in E. now destruct s.
    + rewrite lookup_empty. run. discriminate.
Qed.

Lemma create_plugin_dir_continue (X : collaborators) (plugin_dir : option string)
    (w w' : world) (d : pyval) :
  create_plugin_dir X plugin_dir w = (Return (Continue d), w') →
  ∃ s, d = VStr s ∧ is_dir (fs w) s = true.
Proof.
  unfold create_plugin_dir. rewrite bind_get_world.
  destruct (truthy_opt plugin_dir) eqn:Hdir; cbn [negb].
  - destruct (is_dir (fs w) (default "" plugin_dir)) eqn:Hexists; cbn [negb].
    + intros [= <- _]. eauto.
    + run. intros H. apply ask_plugin_dir_continue in H as (s & -> & _ & Hs).
      eauto.
  - unfold mbind, M_bind. rewrite prompt_run.
    rewrite (ask_all_plain _ (detected X (fs w))) by reflexivity.
    destruct (ask_one (plugin_dir_list X (fs w)) (detected X (fs w)) (tape w))
      as [[v|] tp'] eqn:E; cbn [fst snd].
    + change (q_name (plugin_dir_list X (fs w))) with "plugin_dir".
      rewrite lookup_singleton_eq.
      apply ask_one_accepts in E. destruct v as [| | |s|]; try discriminate.
      cbn in E. unfold is_str.
      destruct (String.eqb_spec s "Other") as [->|Hother].
      * intros H. apply ask_plugin_dir_continue in H as (s & -> & _ & Hs).
        eauto.
      * intros [= <- _]. exists s. split; [reflexivity|].
        apply existsb_exists in E as (x & Hx & Heq).
        apply String.eqb_eq in Heq as <-. unfold detected in Hx.
        apply in_app_or in Hx as [Hx|Hx];
          [|cbn in Hx; destruct Hx as [Hx|[]]; congruence].
        now apply filter_In in Hx.
    + rewrite lookup_empty. run. discriminate.
Qed.

Lemma no_side_effect_in (evs : list event) (e : event) :
  existsb side_effect evs = false → e ∈ evs → side_effect e = false.
Proof.
  intros Hevs He. destruct (side_effect e) eqn:E; [|reflexivity].
  rewrite <- Hevs. symmetry. apply existsb_exists. exists e.
  split; [now apply list_elem_of_In|exact E].
Qed.

(** X10: [create_plugin] instantiates nothing but the plugin template, and
    only into an existing directory and under a non-empty name, whichever
    way name and directory were settled. *)
Theorem create_plugin_generates_into_existing_directory (X : collaborators)
    (name plugin_dir : option string) (w : world)
    (template : string) (no_input : bool) (output_dir : option pyval)
    (extra_context : gmap string pyval) :
  EvCookiecutter template no_input output_dir extra_context
    ∈ new_events (create_plugin X name plugin_dir) w →
  template = template_root X "plugin" ∧ no_input = true ∧
  ∃ d n,
    output_dir = Some (VStr d) ∧ is_dir (fs w) d = true ∧
    extra_context = {["plugin_name" := VStr n]} ∧ n ≠ "".
Proof.
  unfold new_events. rewrite create_plugin_run.
  destruct (create_plugin_name_guarded name w)
    as (evs1 & Hlog1 & Hfs1 & Hside1 & _).
  destruct (create_plugin_name name w) as [[[n|]|e] w1] eqn:Hname;
    cbn [fst snd] in *.
  - destruct (create_plugin_dir_guarded X plugin_dir w1)
      as (evs2 & Hlog2 & Hfs2 & Hside2 & _).
    destruct (create_plugin_dir X plugin_dir w1) as [[[d|]|e] w2] eqn:Hdir;
      cbn [fst snd log] in *; rewrite Hlog2, Hlog1, <- ?List.app_assoc,
        drop_app_length; intros Hin.
    + apply elem_of_app in Hin as [Hin|Hin];
        [now apply (no_side_effect_in _ _ Hside1) in Hin|].
      apply elem_of_app in Hin as [Hin|Hin];
        [now apply (no_side_effect_in _ _ Hside2) in Hin|].
      apply list_elem_of_singleton in Hin. injection Hin as -> -> -> ->.
      apply create_plugin_name_continue in Hname as (s & -> & Hs).
      apply create_plugin_dir_continue in Hdir as (s' & -> & Hs').
      rewrite Hfs1 in Hs'. eauto 10.
    + apply elem_of_app in Hin as [Hin|Hin];
        [now apply (no_side_effect_in _ _ Hside1) in Hin
        |now apply (no_side_effect_in _ _ Hside2) in Hin].
    + apply elem_of_app in Hin as [Hin|Hin];
        [now apply (no_side_effect_in _ _ Hside1) in Hin
        |now apply (no_side_effect_in _ _ Hside2) in Hin].
  - rewrite Hlog1, drop_app_length. intros Hin.
    now apply (no_side_effect_in _ _ Hside1) in Hin.
  - rewrite Hlog1, drop_app_length. intros Hin.
    now apply (no_side_effect_in _ _ Hside1) in Hin.
Qed.

(** The re-prompt, when the user cancels. *)
Lemma ask_plugin_dir_cancelled (w : world) (tp' : list response) :
  ask_one (plugin_dir_input (fs w)) [] (tape w) = (None, tp') →
  ask_plugin_dir w =
    (Return Returned,
     World (fs w) (modules w) tp'
           (log w ++ [EvPrompt [plugin_dir_input (fs w)] (Some "[?]") (Return ∅);
                      EvSecho "Error Input!" (Some "red") false])).
Proof.
  intros Hask. unfold ask_plugin_dir. rewrite bind_get_world.
  unfold mbind, M_bind. rewrite prompt_run.
  rewrite (ask_all_plain _ []) by reflexivity. rewrite Hask. cbn [fst snd].
  rewrite lookup_empty. run. now rewrite <- List.app_assoc.
Qed.

(** X11: a given plugin directory that is not a directory is never used:
    [create_plugin] warns in yellow and asks for the directory as free text;
    the template goes into the directory that the user then submits, and
    nowhere when the user cancels. *)
Theorem create_plugin_rejected_directory (X : collaborators)
    (name plugin_dir : string) (w : world) :
  name ≠ "" → plugin_dir ≠ "" →
  is_dir (fs w) plugin_dir = false →
  let warning := EvSecho "Plugin Dir is not a directory!" (Some "yellow") false in
  let q := plugin_dir_input (fs w) in
  (∀ d tp',
     ask_one q [] (tape w) = (Some d, tp') →
     create_plugin X (Some name) (Some plugin_dir) w =
       (Return tt,
        World (fs w) (modules w) tp'
          (log w ++
           [warning;
            EvPrompt [q] (Some "[?]") (Return {["plugin_dir" := d]});
            EvCookiecutter (template_root X "plugin") true (Some d)
              {["plugin_name" := VStr name]}])))
  ∧ (∀ tp',
       ask_one q [] (tape w) = (None, tp') →
       create_plugin X (Some name) (Some plugin_dir) w =
         (Return tt,
          World (fs w) (modules w) tp'
            (log w ++
             [warning;
              EvPrompt [q] (Some "[?]") (Return ∅);
              EvSecho "Error Input!" (Some "red") false]))).
Proof.
  intros Hname Hdir Hexists warning q. subst warning q.
  assert (Hrun : create_plugin_dir X (Some plugin_dir) w =
                 ask_plugin_dir
                   (add_log (EvSecho "Plugin Dir is not a directory!"
                               (Some "yellow") false) w)).
  { unfold create_plugin_dir.
    rewrite bind_get_world, (truthy_opt_Some plugin_dir Hdir).
    cbn [negb from_option id]. now rewrite Hexists. }
  split.
  - intros d tp' Hask. rewrite create_plugin_run. unfold create_plugin_name.
    rewrite (truthy_opt_Some name Hname). cbn [negb from_option id].
    rewrite mret_run, Hrun.
    destruct (ask_plugin_dir_accepted
                (add_log (EvSecho "Plugin Dir is not a directory!"
                            (Some "yellow") false) w) d tp' Hask) as [_ ->].
    cbn. now rewrite <- !List.app_assoc.
  - intros tp' Hask. rewrite create_plugin_run. unfold create_plugin_name.
    rewrite (truthy_opt_Some name Hname). cbn [negb from_option id].
    rewrite mret_run, Hrun.
    rewrite (ask_plugin_dir_cancelled
               (add_log (EvSecho "Plugin Dir is not a directory!"
                           (Some "yellow") false) w) tp' Hask).
    cbn. now rewrite <- !List.app_assoc.
Qed.

(** ** Further properties of [create_project] *)

Lemma ask_all_cons (q : question) (qs : list question)
    (answers : gmap string pyval) (tp : list response) :
  ask_all (q :: qs) answers tp =
    match resolve_choices q answers with
    | Raise e => (Raise e, tp)
    | Return cs =>
        match ask_one q cs tp with
        | (None, tp') => (Return ∅, tp')
        | (Some v, tp') =>
            match apply_filter q v with
            | Raise e => (Raise e, tp')
            | Return v' => ask_all qs (<[q_name q := v']> answers) tp'
            end
        end
    end.
Proof. reflexivity. Qed.

Lemma folder_char_normalised (c : ascii) :
  folder_char
    ((fun c => if Ascii.eqb c "-" then "_"%char else c)
       ((fun c => if Ascii.eqb c " " then "-"%char else c) (lower_ascii c)))
  = true.
Proof.
  destruct c as [b0 b1 b2 b3 b4 b5 b6 b7].
  destruct b0, b1, b2, b3, b4, b5, b6, b7; reflexivity.
Qed.

(** X13: for a project name of ASCII characters, the folder named in the
    first choice of [create_project]'s second question has as many
    characters as the name and never has a blank, a dash or an upper-case
    letter. *)
Theorem project_folder_label (ctx : gmap string pyval) (s : string) :
  ctx !! "project_name" = Some (VStr s) →
  all_chars is_ascii s = true →
  ∃ folder,
    use_src_choices ctx =
      Return ["1) In a " +:+ dquote +:+ folder +:+ dquote +:+ " folder";
              "2) In a " +:+ dquote +:+ "src" +:+ dquote +:+ " folder"]
    ∧ String.length folder = String.length s
    ∧ all_chars folder_char folder = true.
Proof.
  intros Hctx _. unfold use_src_choices. rewrite Hctx.
  eexists. split; [reflexivity|].
  unfold replace_char, lower. clear Hctx.
  induction s as [|c s IH]; [now split|]. destruct IH as [IHlen IHall].
  cbn [map_chars all_chars String.length]. rewrite IHlen, IHall.
  split; [reflexivity|]. now rewrite folder_char_normalised.
Qed.

(** The two labels offered by the second question. *)
Lemma use_src_pick (s pick : string) (cs : list string) :
  use_src_choices {["project_name" := VStr s]} = Return cs →
  existsb (String.eqb pick) cs = true →
  (startswith pick "2" = true ↔
     pick = "2) In a " +:+ dquote +:+ "src" +:+ dquote +:+ " folder").
Proof.
  unfold use_src_choices. rewrite lookup_singleton_eq. intros [= <-].
  cbn [existsb]. rewrite orb_false_r, orb_true_iff, !String.eqb_eq.
  intros [->| ->]; split; try reflexivity; discriminate.
Qed.

(** The filter of the second question, on an entry that was offered. *)
Lemma use_src_filter (s pick : string) (cs : list string) :
  use_src_choices {["project_name" := VStr s]} = Return cs →
  existsb (String.eqb pick) cs = true →
  startswith pick "2"
  = bool_decide (pick = "2) In a " +:+ dquote +:+ "src" +:+ dquote +:+ " folder").
Proof.
  intros Hcs Hpick. destruct (use_src_pick s pick cs Hcs Hpick) as [H1 H2].
  destruct (startswith pick "2").
  - symmetry. apply bool_decide_eq_true. now apply H1.
  - symmetry. apply bool_decide_eq_false. intros H. now apply H2 in H.
Qed.

(** X12: when the user submits a project name, picks one of the two folder
    entries and answers the confirmation, [create_project] instantiates the
    project template with exactly these answers: the name as submitted (it
    is not empty), [use_src] true exactly when the entry picked is the [src]
    entry, and [load_builtin] as confirmed. *)
Theorem create_project_generates_from_replies (X : collaborators) (w : world)
    (q1 q2 q3 : question) (s pick : string) (b : bool) (cs : list string)
    (tp1 tp2 tp3 : list response) :
  create_project_question = [q1; q2; q3] →
  ask_one q1 [] (tape w) = (Some (VStr s), tp1) →
  use_src_choices {["project_name" := VStr s]} = Return cs →
  ask_one q2 cs tp1 = (Some (VStr pick), tp2) →
  ask_one q3 [] tp2 = (Some (VBool b), tp3) →
  let answers : gmap string pyval :=
    {[ "project_name" := VStr s;
       "use_src" :=
         VBool (bool_decide
                  (pick = "2) In a " +:+ dquote +:+ "src" +:+ dquote +:+ " folder"));
       "load_builtin" := VBool b ]} in
  s ≠ "" ∧ pick ∈ cs ∧
  create_project X w =
    (Return tt,
     World (fs w) (modules w) tp3
       (log w ++
        [EvPrompt create_project_question (Some "[?]") (Return answers);
         EvCookiecutter (template_root X "project") true None answers])).
Proof.
  intros Hqs H1 Hcs H2 H3 answers.
  injection Hqs as <- <- <-.
  pose proof (ask_one_accepts _ _ _ _ _ H1) as A1.
  pose proof (ask_one_accepts _ _ _ _ _ H2) as A2. cbn in A1, A2.
  split; [now destruct s|]. split.
  { apply existsb_exists in A2 as (x & Hx & Heq).
    apply String.eqb_eq in Heq as <-. now apply list_elem_of_In. }
  assert (Hask : ask_all create_project_question ∅ (tape w) = (Return answers, tp3)).
  { unfold create_project_question.
    rewrite ask_all_cons. cbn [resolve_choices q_choices]. rewrite H1.
    unfold apply_filter. cbn [q_filter q_name].
    rewrite ask_all_cons. cbn [resolve_choices q_choices].
    rewrite insert_empty, Hcs, H2. unfold apply_filter. cbn [q_filter q_name].
    rewrite ask_all_cons. cbn [resolve_choices q_choices]. rewrite H3.
    unfold apply_filter. cbn [q_filter q_name ask_all].
    rewrite (use_src_filter s pick cs Hcs A2).
    apply (f_equal (λ m : gmap string pyval, (Return m, tp3))).
    subst answers. apply map_eq. intros k.
    destruct (decide (k = "load_builtin")) as [->|K3]; [by simplify_map_eq|].
    destruct (decide (k = "use_src")) as [->|K2]; [by simplify_map_eq|].
    destruct (decide (k = "project_name")) as [->|K1]; by simplify_map_eq. }
  unfold create_project, cookiecutter, mbind, M_bind.
  rewrite prompt_run, Hask. cbn [fst snd].
  rewrite bool_decide_eq_false_2.
  - run. now rewrite <- List.app_assoc.
  - intros H. apply H. subst answers.
    rewrite !dom_insert_L, dom_singleton_L. cbn.
    apply set_eq. intros k. rewrite !elem_of_union, !elem_of_singleton.
    rewrite elem_of_empty. tauto.
Qed.

(** ** Further properties of the menu *)

(** Every label that the menu offers has a handler stored under it. *)
Lemma menu_label_has_handler (x : string) :
  existsb (String.eqb x) (fst <$> choices) = true →
  ∃ c, dict_item choices x = Return (VFun c) ∧ (x, c) ∈ choices.
Proof.
  cbn [choices fmap list_fmap fst existsb]. rewrite !orb_true_iff, !String.eqb_eq.
  intros H. repeat (destruct H as [->|H]); try discriminate;
    (eexists; split; [reflexivity|]); apply list_elem_of_In; cbn; tauto.
Qed.

Lemma menu_prompt (tp : list response) :
  ask_all [subcommand_question] ∅ tp =
    match ask_one subcommand_question (fst <$> choices) tp with
    | (None, tp') => (Return ∅, tp')
    | (Some v, tp') =>
        match apply_filter subcommand_question v with
        | Raise e => (Raise e, tp')
        | Return v' => (Return {["subcommand" := v']}, tp')
        end
    end.
Proof. reflexivity. Qed.

Lemma menu_start (X : collaborators) (w : world) :
  handle_no_subcommand X w =
    (answers ← prompt [subcommand_question] None;
     match answers !! "subcommand" with
     | None => secho "Error Input!" (Some "red") false
     | Some v =>
         if negb (truthy v) then secho "Error Input!" (Some "red") false
         else match v with
              | VFun c => call X c;; mret tt
              | _ => raise TypeError
              end
     end)
      (World (fs w) (modules w) (tape w)
         (log w ++
          [EvSecho (strip (figlet_format X "NoneBot" "basic")) (Some "cyan") true;
           EvEcho (nl +:+ String "008"%char "");
           EvSecho "Welcome to NoneBot CLI!" (Some "green") true])).
Proof.
  unfold handle_no_subcommand, draw_logo, secho, echo, emit, add_log.
  unfold mbind at 1 2 3, M_bind at 1 2 3. cbn [fs modules tape log].
  now rewrite <- !List.app_assoc.
Qed.

(** X14: the menu runs exactly the handler stored under the label that the
    user picks, on the world left by the prompt; when the user cancels, it
    prints [Error Input!] in red and runs no handler. *)
Theorem menu_runs_picked_handler (X : collaborators) (w : world) :
  (∀ tp',
     ask_one subcommand_question (fst <$> choices) (tape w) = (None, tp') →
     handle_no_subcommand X w =
       (Return tt,
        World (fs w) (modules w) tp'
          (log w ++
           [EvSecho (strip (figlet_format X "NoneBot" "basic")) (Some "cyan") true;
            EvEcho (nl +:+ String "008"%char "");
            EvSecho "Welcome to NoneBot CLI!" (Some "green") true;
            EvPrompt [subcommand_question] None (Return ∅);
            EvSecho "Error Input!" (Some "red") false])))
  ∧ (∀ v tp',
       ask_one subcommand_question (fst <$> choices) (tape w) = (Some v, tp') →
       ∃ x c,
         v = VStr x ∧ (x, c) ∈ choices ∧
         handle_no_subcommand X w =
           (call X c;; mret tt)
             (World (fs w) (modules w) tp' (log w ++ menu_events X c))).
Proof.
  split.
  - intros tp' Hask. rewrite menu_start.
    unfold mbind, M_bind. rewrite prompt_run. cbn [tape fs modules log].
    rewrite menu_prompt, Hask. cbn [fst snd]. rewrite lookup_empty.
    run. now rewrite <- !List.app_assoc.
  - intros v tp' Hask.
    pose proof (ask_one_accepts _ _ _ _ _ Hask) as Hacc.
    destruct v as [| | |x|]; try discriminate. cbn in Hacc.
    destruct (menu_label_has_handler x Hacc) as (c & Hitem & Hin).
    exists x, c. split; [reflexivity|]. split; [exact Hin|].
    rewrite menu_start.
    unfold mbind at 1, M_bind at 1. rewrite prompt_run. cbn [tape fs modules log].
    rewrite menu_prompt, Hask. unfold apply_filter.
    cbn [q_filter subcommand_question]. rewrite Hitem. cbn [fst snd].
    rewrite lookup_singleton_eq. cbn [truthy negb].
    unfold menu_events. now rewrite <- !List.app_assoc.
Qed.

(** X15: picked from the menu, the build and the deploy entries run the
    compose proxy on the command lines [build] and [up -d]: the line is
    parsed, the two loggers are set up and the external dispatch is called,
    in this order. *)
Theorem menu_build_and_deploy_reach_dispatch (X : collaborators)
    (f : gmap string node) (m : gmap string (gmap string pyval))
    (tp : list response) (lg : list event) :
  handle_no_subcommand X
    (World f m (Reply (VStr "Build Docker Image for the Bot") :: tp) lg)
  = (Return tt,
     World f m tp
       (lg ++ menu_events X (Partial F_call_docker_compose [AStr "build"; AStrs []])
           ++ compose_events X ["build"]))
  ∧
  handle_no_subcommand X
    (World f m (Reply (VStr "Deploy the Bot to Docker") :: tp) lg)
  = (Return tt,
     World f m tp
       (lg ++ menu_events X (Partial F_call_docker_compose [AStr "up"; AStrs ["-d"]])
           ++ compose_events X ["up"; "-d"])).
Proof.
  destruct (build_and_deploy_variants_dispatch X f m tp lg) as [-> ->].
  rewrite !call_docker_compose_run. cbn [snd log].
  unfold compose_events. now rewrite <- !List.app_assoc.
Qed.

(** ** Concrete runs of the further properties *)

Lemma install_plugin_is_pure_insertion_witness :
  ∃ pre a post,
    readlines demo_bot_py = pre ++ a :: post ∧
    is_anchor a = true ∧
    (∀ l, l ∈ post → is_anchor l = false) ∧
    demo_bot_py = writelines (pre ++ [a]) +:+ writelines post ∧
    fs (install_plugin demo "foo" "bot.py" pypi (demo_world [])).2 !! "bot.py" =
      Some (File (writelines (pre ++ [a]) +:+ load_statement "foo"
                    +:+ writelines post)).
Proof.
  apply (install_plugin_is_pure_insertion
           demo "foo" "bot.py" pypi demo_bot_py (demo_world [])).
  - vm_compute. reflexivity.
  - vm_compute. reflexivity.
  - exists ("nonebot.init()" +:+ nl). split; [|reflexivity].
    apply list_elem_of_In. vm_compute. right. left. reflexivity.
Defined.




Lemma run_bot_missing_file_witness :
  run_bot demo "main.py" "app" (demo_world []) =
    (Return tt,
     World demo_fs demo_modules []
           ([] ++ [EvSecho ("Cannot find " +:+ "main.py" +:+ " in current folder!")
                           (Some "red") false])).
Proof.
  apply (run_bot_missing_file demo "main.py" "app" (demo_world [])).
  vm_compute. reflexivity.
Defined.

Lemma run_bot_starts_witness :
  isfile demo_fs "bot.py" = true ∧
  ∃ module v,
    demo_modules !! (splitext demo "bot.py").1 = Some module ∧
    module !! "app" = Some v ∧
    (None : option string)
      = if truthy v then Some ((splitext demo "bot.py").1 +:+ ":" +:+ "app") else None.
Proof.
  apply (run_bot_starts_only_with_attribute demo "bot.py" "app" (demo_world []) None).
  vm_compute. apply list_elem_of_In. cbn. right. right. left. reflexivity.
Defined.

Lemma create_plugin_non_interactive_witness :
  create_plugin demo (Some "demo") (Some "plugins") (demo_world []) =
    (Return tt,
     World demo_fs demo_modules []
           ([] ++ [EvCookiecutter (template_root demo "plugin") true
                     (Some (VStr "plugins")) {["plugin_name" := VStr "demo"]}])).
Proof.
  apply (create_plugin_non_interactive demo "demo" "plugins" (demo_world [])).
  - discriminate.
  - discriminate.
  - vm_compute. reflexivity.
Defined.

Lemma create_plugin_generates_witness :
  template_root demo "plugin" = template_root demo "plugin" ∧ true = true ∧
  ∃ d n,
    Some (VStr "src/plugins") = Some (VStr d) ∧ is_dir demo_fs d = true ∧
    ({["plugin_name" := VStr "demo"]} : gmap string pyval)
      = {["plugin_name" := VStr n]} ∧ n ≠ "".
Proof.
  apply (create_plugin_generates_into_existing_directory demo None None
           (demo_world [Reply (VStr "demo"); Reply (VStr "src/plugins")])).
  vm_compute. apply list_elem_of_In. cbn. right. right. left. reflexivity.
Defined.

Lemma create_plugin_rejected_directory_witness :
  create_plugin demo (Some "demo") (Some "docs/plugins")
    (demo_world [Reply (VStr "src/plugins")]) =
    (Return tt,
     World demo_fs demo_modules []
       ([] ++
        [EvSecho "Plugin Dir is not a directory!" (Some "yellow") false;
         EvPrompt [plugin_dir_input demo_fs] (Some "[?]")
           (Return {["plugin_dir" := VStr "src/plugins"]});
         EvCookiecutter (template_root demo "plugin") true
           (Some (VStr "src/plugins")) {["plugin_name" := VStr "demo"]}])).
Proof.
  apply (create_plugin_rejected_directory demo "demo" "docs/plugins"
           (demo_world [Reply (VStr "src/plugins")])).
  - discriminate.
  - discriminate.
  - vm_compute. reflexivity.
  - vm_compute. reflexivity.
Defined.

Lemma create_project_generates_from_replies_witness :
  let w := demo_world
             [Reply (VStr "My Bot");
              Reply (VStr ("1) In a " +:+ dquote +:+ "my_bot" +:+ dquote +:+ " folder"));
              Reply (VBool true)] in
  let answers : gmap string pyval :=
    {[ "project_name" := VStr "My Bot"; "use_src" := VBool false;
       "load_builtin" := VBool true ]} in
  "My Bot" ≠ "" ∧
  "1) In a " +:+ dquote +:+ "my_bot" +:+ dquote +:+ " folder"
    ∈ ["1) In a " +:+ dquote +:+ "my_bot" +:+ dquote +:+ " folder";
       "2) In a " +:+ dquote +:+ "src" +:+ dquote +:+ " folder"] ∧
  create_project demo w =
    (Return tt,
     World demo_fs demo_modules []
       ([] ++
        [EvPrompt create_project_question (Some "[?]") (Return answers);
         EvCookiecutter (template_root demo "project") true None answers])).
Proof.
  cbv zeta.
  apply (create_project_generates_from_replies demo
           (demo_world
              [Reply (VStr "My Bot");
               Reply (VStr ("1) In a " +:+ dquote +:+ "my_bot" +:+ dquote +:+ " folder"));
               Reply (VBool true)])
           _ _ _ "My Bot"
           ("1) In a " +:+ dquote +:+ "my_bot" +:+ dquote +:+ " folder") true
           ["1) In a " +:+ dquote +:+ "my_bot" +:+ dquote +:+ " folder";
            "2) In a " +:+ dquote +:+ "src" +:+ dquote +:+ " folder"]
           [Reply (VStr ("1) In a " +:+ dquote +:+ "my_bot" +:+ dquote +:+ " folder"));
            Reply (VBool true)]
           [Reply (VBool true)] [] eq_refl).
  - vm_compute. reflexivity.
  - vm_compute. reflexivity.
  - vm_compute. reflexivity.
  - vm_compute. reflexivity.
Defined.

Lemma project_folder_label_witness :
  ∃ folder,
    use_src_choices {["project_name" := VStr "My Bot-2"]} =
      Return ["1) In a " +:+ dquote +:+ folder +:+ dquote +:+ " folder";
              "2) In a " +:+ dquote +:+ "src" +:+ dquote +:+ " folder"]
    ∧ String.length folder = String.length "My Bot-2"
    ∧ all_chars folder_char folder = true.
Proof.
  apply (project_folder_label {["project_name" := VStr "My Bot-2"]} "My Bot-2").
  - vm_compute. reflexivity.
  - vm_compute. reflexivity.
Defined.
